(** * A natural-language-to-SQL chatbot: model of [app.py] and its properties

    The program is a single Python module.  Its pipeline reads a question,
    asks a local language model for a SQL statement
    ([generate_sql_langchain]), runs the statement on a SQLite file
    ([fetch_data]), and has a remote chat service rephrase the rows
    ([rephrase_answer_deepseek_api]).  A second group of functions is meant to
    be run by a scheduler and mails alerts about per-location metrics.

    Python text is modelled as a list of Unicode code points, an exception
    as a value of [exn], and every function that talks to the outside as a
    computation in the monad [M], which records the outside calls it makes
    (the [event]s) and ends in a returned value or a raised exception.  The
    outside itself (the SQLite engine, the two model services, the mail
    server) is a [world] of oracles. *)

From Stdlib Require Import List NArith ZArith Lia Bool Ascii String.
From Stdlib Require DecimalPos DecimalZ.
Import ListNotations.

Set Implicit Arguments.

(** ** Text *)

(** A Python [str]: a sequence of code points. *)
Definition str := list N.

(** The text of a literal of the source. *)
Definition lit (s : string) : str := map N_of_ascii (list_ascii_of_string s).

Definition nl : str := [10%N].

Fixpoint str_eqb (a b : str) : bool :=
  match a, b with
  | [], [] => true
  | x :: a', y :: b' => N.eqb x y && str_eqb a' b'
  | _, _ => false
  end.

(** [str.isspace] for one character: the code points CPython lists as
    white space. *)
Definition isspace (c : N) : bool :=
  ((9 <=? c) && (c <=? 13) || (28 <=? c) && (c <=? 32)
   || (c =? 133) || (c =? 160) || (c =? 5760)
   || (8192 <=? c) && (c <=? 8202)
   || (c =? 8232) || (c =? 8233) || (c =? 8239) || (c =? 8287)
   || (c =? 12288))%N.

(** A surrogate code point.  A text may hold one on its own; no UTF-8
    encoding of it exists. *)
Definition is_surrogate (c : N) : bool := ((55296 <=? c) && (c <=? 57343))%N.

Fixpoint dropwhile (p : N -> bool) (s : str) : str :=
  match s with
  | [] => []
  | c :: s' => if p c then dropwhile p s' else s
  end.

Definition lstrip (s : str) : str := dropwhile isspace s.
Definition rstrip (s : str) : str := rev (dropwhile isspace (rev s)).

(** [s.strip()]: white space removed at both ends, nothing else changed. *)
Definition strip (s : str) : str := rstrip (lstrip s).

(** [sep.join(parts)] *)
Fixpoint join (sep : str) (parts : list str) : str :=
  match parts with
  | [] => []
  | [p] => p
  | p :: rest => p ++ sep ++ join sep rest
  end.



(** [needle in hay] for two texts. *)
Fixpoint is_prefix (a b : str) : bool :=
  match a, b with
  | [], _ => true
  | x :: a', y :: b' => N.eqb x y && is_prefix a' b'
  | _ :: _, [] => false
  end.

Fixpoint is_infix (needle hay : str) : bool :=
  is_prefix needle hay ||
  match hay with
  | [] => false
  | _ :: hay' => is_infix needle hay'
  end.

(** *** Decimal and hexadecimal digits *)

Fixpoint uint_digits (u : Decimal.uint) : str :=
  match u with
  | Decimal.Nil => []
  | Decimal.D0 u => 48%N :: uint_digits u
  | Decimal.D1 u => 49%N :: uint_digits u
  | Decimal.D2 u => 50%N :: uint_digits u
  | Decimal.D3 u => 51%N :: uint_digits u
  | Decimal.D4 u => 52%N :: uint_digits u
  | Decimal.D5 u => 53%N :: uint_digits u
  | Decimal.D6 u => 54%N :: uint_digits u
  | Decimal.D7 u => 55%N :: uint_digits u
  | Decimal.D8 u => 56%N :: uint_digits u
  | Decimal.D9 u => 57%N :: uint_digits u
  end.

(** [repr] of a Python [int]. *)
Definition int_repr (z : Z) : str :=
  match Z.to_int z with
  | Decimal.Pos u => uint_digits u
  | Decimal.Neg u => 45%N :: uint_digits u
  end.

Definition hex_digit (d : N) : N :=
  (if d <? 10 then 48 + d else 87 + d)%N.

(** The [n] low hexadecimal digits of [c], most significant first. *)
Fixpoint hex_fixed (n : nat) (c : N) : str :=
  match n with
  | O => []
  | S n' => hex_fixed n' (c / 16) ++ [hex_digit (c mod 16)]
  end.

(** *** [repr] of [str] and of [bytes] *)

Definition has_char (c : N) (s : str) : bool := existsb (N.eqb c) s.

(** The quote [repr] puts around a text: a single quote, unless the text has
    single quotes and no double quote. *)
Definition repr_quote (s : str) : N :=
  if has_char 39%N s && negb (has_char 34%N s) then 34%N else 39%N.

Section StrRepr.
(** [str.isprintable] for one character, a table of the Unicode database. *)
Variable isprintable : N -> bool.

Definition str_repr_char (quote c : N) : str :=
  (if (c =? quote) || (c =? 92) then [92; c]
   else if c =? 9 then [92; 116]
   else if c =? 10 then [92; 110]
   else if c =? 13 then [92; 114]
   else if (c <? 32) || (c =? 127) then [92; 120] ++ hex_fixed 2 c
   else if c <? 127 then [c]
   else if isprintable c then [c]
   else if c <=? 255 then [92; 120] ++ hex_fixed 2 c
   else if c <=? 65535 then [92; 117] ++ hex_fixed 4 c
   else [92; 85] ++ hex_fixed 8 c)%N.

Definition str_repr (s : str) : str :=
  let q := repr_quote s in
  [q] ++ flat_map (str_repr_char q) s ++ [q].
End StrRepr.

Definition bytes_repr_char (quote c : N) : str :=
  (if (c =? quote) || (c =? 92) then [92; c]
   else if c =? 9 then [92; 116]
   else if c =? 10 then [92; 110]
   else if c =? 13 then [92; 114]
   else if (c <? 32) || (127 <=? c) then [92; 120] ++ hex_fixed 2 c
   else [c])%N.

Definition bytes_repr (b : list Byte.byte) : str :=
  let s := map Byte.to_N b in
  let q := repr_quote s in
  [98%N; q] ++ flat_map (bytes_repr_char q) s ++ [q].

(** ** Exceptions *)

(** The exception classes the program raises or selects on.  A class stands
    for itself and its subclasses, as an [except] clause sees them. *)
Inductive exn : Type :=
| SqliteError (msg : str)         (* sqlite3.Error; [str(e)] is [msg] *)
| RequestException (msg : str)    (* requests.exceptions.RequestException *)
| JSONDecodeError                 (* json.JSONDecodeError that is no RequestException *)
| KeyError (key : str)            (* [str(e)] is [key], the repr of the key *)
| IndexError
| TypeError
| AttributeError
| ValueError                      (* with UnicodeEncodeError, one of its subclasses *)
| NameError (name : str)
| UnboundLocalError (name : str)
| OtherException (msg : str).

Inductive result (A : Type) : Type :=
| Ok (a : A)
| Raise (e : exn).
Arguments Raise {A} e.

Record datetime : Type := {
  year : Z; month : Z; day : Z; hour : Z; minute : Z; second : Z
}.

(** What is taken from the interpreter as given: for Python's [float], its
    [repr] and its truth value; for a character, [str.isprintable], a table
    of the Unicode database. *)
Class interpreter (float : Type) : Type := {
  float_repr : float -> str;
  float_truthy : float -> bool;
  isprintable : N -> bool
}.

Section Program.

Variable float : Type.
Context {py : interpreter float}.

(** ** Values *)

(** A value in a row that [sqlite3] hands back. *)
Inductive scalar : Type :=
| SNull
| SInt (z : Z)
| SReal (f : float)
| SText (s : str)
| SBlob (b : list Byte.byte).

(** A row: the tuple [fetchall] gives for it. *)
Definition row := list scalar.

(** Decoded JSON, and the metrics mapping of the alerting functions. *)
#[warnings="-register-all"] Inductive pyval : Type :=
| VNone
| VBool (b : bool)
| VInt (z : Z)
| VFloat (f : float)
| VStr (s : str)
| VList (l : list pyval)
| VDict (d : list (str * pyval)).

Definition scalar_repr (x : scalar) : str :=
  match x with
  | SNull => lit "None"
  | SInt z => int_repr z
  | SReal f => float_repr f
  | SText s => str_repr isprintable s
  | SBlob b => bytes_repr b
  end.

(** [str(x)], which is also what an f-string puts for [{x}]. *)
Definition scalar_str (x : scalar) : str :=
  match x with
  | SText s => s
  | _ => scalar_repr x
  end.

Definition scalar_truthy (x : scalar) : bool :=
  match x with
  | SNull => false
  | SInt z => negb (Z.eqb z 0)
  | SReal f => float_truthy f
  | SText s => match s with [] => false | _ => true end
  | SBlob b => match b with [] => false | _ => true end
  end.

(** [str(row)] for a tuple: the reprs of its elements, in order, between
    parentheses, with the comma of a one-element tuple. *)
Definition row_str (r : row) : str :=
  match r with
  | [] => lit "()"
  | [x] => lit "(" ++ scalar_repr x ++ lit ",)"
  | _ => lit "(" ++ join (lit ", ") (map scalar_repr r) ++ lit ")"
  end.

Fixpoint py_repr (v : pyval) : str :=
  match v with
  | VNone => lit "None"
  | VBool b => if b then lit "True" else lit "False"
  | VInt z => int_repr z
  | VFloat f => float_repr f
  | VStr s => str_repr isprintable s
  | VList l => lit "[" ++ join (lit ", ") (map py_repr l) ++ lit "]"
  | VDict d =>
      lit "{"
      ++ join (lit ", ")
           (map (fun kv : str * pyval =>
                   let (k, x) := kv in
                   str_repr isprintable k ++ lit ": " ++ py_repr x) d)
      ++ lit "}"
  end.

Definition py_str (v : pyval) : str :=
  match v with
  | VStr s => s
  | _ => py_repr v
  end.

Definition py_truthy (v : pyval) : bool :=
  match v with
  | VNone => false
  | VBool b => b
  | VInt z => negb (Z.eqb z 0)
  | VFloat f => float_truthy f
  | VStr s => match s with [] => false | _ => true end
  | VList l => match l with [] => false | _ => true end
  | VDict d => match d with [] => false | _ => true end
  end.

(** ** The outside world *)

Record response : Type := {
  (** [raise_for_status()]: the message of the [HTTPError] it raises. *)
  status_error : option str;
  (** [json()]: the decoded body, or the exception decoding raises.  For
      a body that is not JSON the library raises its own
      [requests.exceptions.JSONDecodeError], a subclass of both
      [RequestException] and [json.JSONDecodeError]; the first clause that
      names one of its classes takes it, so it is a [RequestException]
      here. *)
  body_json : exn + pyval
}.

(** A call to the outside, as the program makes it. *)
Inductive event : Type :=
| EConnect (database_path : str)        (* sqlite3.connect(database_path) *)
| EExecute (sql : str)                  (* cursor.execute(sql), then fetchall() *)
| EClose                                (* conn.close() *)
| EInvoke (model prompt : str)          (* the chain invoked on the prompt *)
| EPost (url : str) (headers : list (str * str)) (payload : pyval)
                                        (* requests.post(url, ...) *)
| EPrint (text : str)                   (* print(text) *)
| ESendmail (to_email : pyval) (subject body : str).
                                        (* a mail session that went through:
                                           SMTP(), starttls(), login(),
                                           sendmail() and the end of the
                                           session, without an exception *)

Record world : Type := {
  (** [sqlite3.connect(path)]: the exception it raises, if any. *)
  sqlite3_connect : str -> option exn;
  (** [cursor.execute(sql)] followed by [cursor.fetchall()] on a
      connection to [path]. *)
  cursor_execute : str -> str -> exn + list row;
  (** One completion of the local model for a prompt. *)
  ollama_invoke : str -> str -> exn + str;
  (** [requests.post(url, headers=..., json=...)]. *)
  requests_post : str -> list (str * str) -> pyval -> exn + response;
  (** Building one mail, opening the session ([SMTP], [starttls],
      [login]), [sendmail], and ending the session: the text of the
      exception raised at any of these, if any. *)
  smtp_sendmail : pyval -> str -> str -> option str;
  datetime_now : datetime
}.

(** ** Computations *)

(** The outside calls made so far, and how the computation ended. *)
Definition M (A : Type) : Type := (list event * result A)%type.

Definition ret {A} (a : A) : M A := ([], Ok a).
Definition raise {A} (e : exn) : M A := ([], Raise e).
Definition emit (ev : event) : M unit := ([ev], Ok tt).

Definition bind {A B} (m : M A) (f : A -> M B) : M B :=
  match snd m with
  | Ok a => (fst m ++ fst (f a), snd (f a))
  | Raise e => (fst m, Raise e)
  end.

(** [try: m  except ...: handler]: [handler e] is the body of the first
    clause that matches [e], if one does. *)
Definition try_except {A} (m : M A) (handler : exn -> option (M A)) : M A :=
  match snd m with
  | Ok _ => m
  | Raise e =>
      match handler e with
      | Some h => (fst m ++ fst h, snd h)
      | None => m
      end
  end.

Definition lift {A} (r : exn + A) : M A :=
  match r with
  | inl e => raise e
  | inr a => ret a
  end.

Definition trace {A} (m : M A) : list event := fst m.
Definition outcome {A} (m : M A) : result A := snd m.


Notation "x <- m ;; k" := (bind m (fun x => k))
  (at level 61, m at next level, right associativity).
Notation "m ;;; k" := (bind m (fun _ => k))
  (at level 61, right associativity).

(** [print(text)] for a diagnostic: a text made of literals of the program,
    of messages the libraries decoded, and of reprs, which standard output
    encodes. *)
Definition print (text : str) : M unit := emit (EPrint text).

(** ** Schema introspection: [get_database_schema] *)

Definition connect (w : world) (database_path : str) : M unit :=
  emit (EConnect database_path) ;;;
  match sqlite3_connect w database_path with
  | Some e => raise e
  | None => ret tt
  end.

Definition execute (w : world) (database_path sql : str) : M (list row) :=
  emit (EExecute sql) ;;;
  lift (cursor_execute w database_path sql).

Definition close : M unit := emit EClose.

Definition catalog_query : str :=
  lit "SELECT name FROM sqlite_master WHERE type='table';".

Definition table_info_query (table : scalar) : str :=
  lit "PRAGMA table_info(" ++ scalar_str table ++ lit ")".

(** [[row[0] for row in rows]] *)
Fixpoint first_columns (rows : list row) : M (list scalar) :=
  match rows with
  | [] => ret []
  | r :: rest =>
      match r with
      | [] => raise IndexError
      | x :: _ => xs <- first_columns rest ;; ret (x :: xs)
      end
  end.

(** One pass of the inner loop: the text added for [column]. *)
Definition describe_column (column : row) : M str :=
  match column with
  | [cid; name; type; notnull; dflt_value; pk] =>
      ret (lit "  Column: " ++ scalar_str name
           ++ lit ", Type: " ++ scalar_str type
           ++ (if scalar_truthy notnull then lit ", NOT NULL" else [])
           ++ (if scalar_truthy pk then lit ", PRIMARY KEY" else [])
           ++ nl)
  | _ => raise ValueError
  end.

Fixpoint describe_columns (columns : list row) (schema_description : str)
  : M str :=
  match columns with
  | [] => ret schema_description
  | column :: rest =>
      text <- describe_column column ;;
      describe_columns rest (schema_description ++ text)
  end.

Fixpoint describe_tables (w : world) (database_path : str)
  (tables : list scalar) (schema_description : str) : M str :=
  match tables with
  | [] => ret schema_description
  | table :: rest =>
      let schema_description :=
        schema_description ++ nl ++ lit "Table: " ++ scalar_str table ++ nl in
      columns <- execute w database_path (table_info_query table) ;;
      schema_description <- describe_columns columns schema_description ;;
      describe_tables w database_path rest schema_description
  end.

Definition get_database_schema (w : world) (database_path : str) : M str :=
  connect w database_path ;;;
  rows <- execute w database_path catalog_query ;;
  tables <- first_columns rows ;;
  schema_description <- describe_tables w database_path tables [] ;;
  close ;;;
  ret schema_description.

(** ** Synthesis: [generate_sql_langchain] *)

(** The template with [schema] and [query] filled in. *)
Definition synthesis_prompt (schema query : str) : str :=
  lit "You are a helpful AI assistant that translates natural language queries into SQL code for a SQLite database."
  ++ nl ++ lit "    Here is the schema of the database:"
  ++ nl ++ lit "    " ++ schema
  ++ nl ++ lit "    Only return the SQL code. Do not provide any explanations or surrounding text."
  ++ nl ++ lit "    Make sure to use table and column names exactly as they appear in the schema."
  ++ nl
  ++ nl ++ lit "    User query: " ++ query
  ++ nl ++ lit "    SQL code:"
  ++ nl ++ lit "    ".

Definition invoke (w : world) (model prompt : str) : M str :=
  emit (EInvoke model prompt) ;;;
  lift (ollama_invoke w model prompt).

Definition generate_sql_langchain (w : world)
  (prompt database_path ollama_model : str) : M str :=
  schema_info <- get_database_schema w database_path ;;
  completion <- invoke w ollama_model (synthesis_prompt schema_info prompt) ;;
  let sql_code := strip completion in
  ret sql_code.

(** ** Execution: [fetch_data] *)

(** The value returned is the list of rows, or [None]. *)
Definition fetch_data (w : world) (database_path sql_query : str)
  : M (option (list row)) :=
  try_except
    (connect w database_path ;;;
     data <- execute w database_path sql_query ;;
     close ;;;
     ret (Some data))
    (fun e =>
       match e with
       | SqliteError msg =>
           Some (print (lit "SQLite error: " ++ msg) ;;; ret None)
       | _ => None
       end).

(** ** Rephrasing: [rephrase_answer_deepseek_api] *)

Definition deepseek_api_key : str := lit "sk-ab3bdd397ec34efabaa31c516d5acabf".

Definition deepseek_url : str := lit "https://api.deepseek.com/v1/chat/completions".

Definition data_str (data : list row) : str := join nl (map row_str data).

Definition deepseek_prompt (prompt : str) (data : list row) : str :=
  nl ++ lit "    You are a helpful AI assistant."
  ++ nl ++ lit "    The user asked the following question: " ++ prompt
  ++ nl ++ lit "    The following data was retrieved from a database:"
  ++ nl ++ lit "    " ++ data_str data
  ++ nl ++ lit "    Please rephrase the data into a concise and user-friendly answer."
  ++ nl ++ lit "    ".

Definition deepseek_headers : list (str * str) :=
  [ (lit "Content-Type", lit "application/json");
    (lit "Authorization", lit "Bearer " ++ deepseek_api_key) ].

Definition deepseek_payload (prompt : str) (data : list row) : pyval :=
  VDict [ (lit "model", VStr (lit "deepseek-chat"));
          (lit "messages",
           VList [ VDict [ (lit "role", VStr (lit "user"));
                           (lit "content", VStr (deepseek_prompt prompt data)) ] ]) ].

Definition post (w : world) (url : str) (headers : list (str * str))
  (payload : pyval) : M response :=
  emit (EPost url headers payload) ;;;
  lift (requests_post w url headers payload).

Definition raise_for_status (r : response) : M unit :=
  match status_error r with
  | Some msg => raise (RequestException msg)
  | None => ret tt
  end.

Fixpoint dict_get (d : list (str * pyval)) (key : str) : option pyval :=
  match d with
  | [] => None
  | (k, x) :: d' => if str_eqb k key then Some x else dict_get d' key
  end.

(** [v[key]] for a text [key]. *)
Definition getitem_str (v : pyval) (key : str) : M pyval :=
  match v with
  | VDict d =>
      match dict_get d key with
      | Some x => ret x
      | None => raise (KeyError (str_repr isprintable key))
      end
  | _ => raise TypeError
  end.

(** [v[i]] for a natural number [i]. *)
Definition getitem_int (v : pyval) (i : nat) : M pyval :=
  match v with
  | VList l =>
      match nth_error l i with
      | Some x => ret x
      | None => raise IndexError
      end
  | VStr s =>
      match nth_error s i with
      | Some c => ret (VStr [c])
      | None => raise IndexError
      end
  | VDict _ => raise (KeyError (int_repr (Z.of_nat i)))
  | _ => raise TypeError
  end.

(** [v.strip()] *)
Definition strip_method (v : pyval) : M str :=
  match v with
  | VStr s => ret (strip s)
  | _ => raise AttributeError
  end.

(** [response_json['choices'][0]['message']['content'].strip()] *)
Definition extract_content (response_json : pyval) : M str :=
  choices <- getitem_str response_json (lit "choices") ;;
  choice <- getitem_int choices 0 ;;
  message <- getitem_str choice (lit "message") ;;
  content <- getitem_str message (lit "content") ;;
  strip_method content.

Definition rephrase_answer_deepseek_api (w : world) (prompt : str)
  (data : option (list row)) : M (option str) :=
  match data with
  | None | Some [] => ret (Some (lit "No data found."))
  | Some rows =>
      try_except
        (response <- post w deepseek_url deepseek_headers
                       (deepseek_payload prompt rows) ;;
         raise_for_status response ;;;
         response_json <- lift (body_json response) ;;
         rephrased_answer <- extract_content response_json ;;
         ret (Some rephrased_answer))
        (fun e =>
           match e with
           | RequestException msg =>
               Some (print (lit "Error communicating with DeepSeek API: " ++ msg) ;;;
                     ret None)
           | JSONDecodeError =>
               Some (print (lit "Error decoding DeepSeek API response: Invalid JSON") ;;;
                     ret None)
           | KeyError key =>
               Some (print (lit "Error extracting content from DeepSeek response.  Key not found: " ++ key) ;;;
                     ret None)
           | _ => None
           end)
  end.

(** ** One turn of the command loop *)

Definition database_file : str := lit "jordan_transactions.db".
Definition ollama_model_name : str := lit "openchat".

(** [print(x)] for the rephraser's result, a text or [None].  The text
    comes from the reply of the chat service, whose JSON can hold a
    surrogate on its own; standard output, UTF-8 and strict, then raises
    [UnicodeEncodeError] and shows nothing. *)
Definition print_answer (x : option str) : M unit :=
  let text := match x with Some s => s | None => lit "None" end in
  if existsb is_surrogate text then raise ValueError else print text.

(** The body of the loop for a question that is not the exit word. *)
Definition turn (w : world) (user_prompt : str) : M unit :=
  sql_query <- generate_sql_langchain w user_prompt database_file
                 ollama_model_name ;;
  match sql_query with
  | [] => ret tt
  | _ :: _ =>
      data <- fetch_data w database_file sql_query ;;
      rephrased_answer <- rephrase_answer_deepseek_api w user_prompt data ;;
      print_answer rephrased_answer
  end.

(** ** Scheduled alerts and reports *)

Section Alerting.

(** The module constants [0.05] and [2.0], and the arithmetic, formatting
    and text functions of the interpreter and its library that the alerting
    functions call. *)
Class library : Type := {
  FAILURE_THRESHOLD : float;
  ANOMALY_THRESHOLD : float;
  py_gt : pyval -> pyval -> result bool;
  py_mul : pyval -> pyval -> result pyval;
  py_truediv : pyval -> pyval -> result pyval;
  py_sum : list pyval -> result pyval;
  py_format : pyval -> str -> result str;
  capitalize : str -> str;
  json_dumps_indent4 : pyval -> result str;
  strftime : datetime -> str -> str
}.

Context {lib : library}.

Definition lift_result {A} (r : result A) : M A := ([], r).

(** Reading a local of the function: unbound until first assigned. *)
Definition load_fast {A} (name : str) (slot : option A) : M A :=
  match slot with
  | Some x => ret x
  | None => raise (UnboundLocalError name)
  end.

(** Reading a name of the module. *)
Definition load_global {A} (name : str) (slot : option A) : M A :=
  match slot with
  | Some x => ret x
  | None => raise (NameError name)
  end.

(** The value cells of a scope, by name. *)
Definition namespace : Type := list (str * pyval).

Fixpoint lookup (ns : namespace) (name : str) : option pyval :=
  match ns with
  | [] => None
  | (k, x) :: ns' => if str_eqb k name then Some x else lookup ns' name
  end.

(** Reading [name] in a function whose body binds the names [bound], by
    assignment or as a loop target: a bound name is a local of the function
    wherever in the body it is read, every other name is the module's. *)
Definition load_name (bound : list str) (locals globals : namespace)
  (name : str) : M pyval :=
  if existsb (str_eqb name) bound
  then load_fast name (lookup locals name)
  else load_global name (lookup globals name).

(** [v.items()] *)
Definition items (v : pyval) : M (list (str * pyval)) :=
  match v with
  | VDict d => ret d
  | _ => raise AttributeError
  end.

(** [key in v] for a text [key]. *)
Definition contains (v : pyval) (key : str) : M bool :=
  match v with
  | VDict d => ret (match dict_get d key with Some _ => true | None => false end)
  | VList l =>
      ret (existsb (fun x => match x with VStr s => str_eqb s key | _ => false end) l)
  | VStr s => ret (is_infix key s)
  | _ => raise TypeError
  end.

(** [iter(v)], all at once. *)
Definition iterate (v : pyval) : M (list pyval) :=
  match v with
  | VDict d => ret (map (fun kv : str * pyval => VStr (fst kv)) d)
  | VList l => ret l
  | VStr s => ret (map (fun c => VStr [c]) s)
  | _ => raise TypeError
  end.

(** [len(v)] *)
Definition len (v : pyval) : M pyval :=
  match v with
  | VDict d => ret (VInt (Z.of_nat (List.length d)))
  | VList l => ret (VInt (Z.of_nat (List.length l)))
  | VStr s => ret (VInt (Z.of_nat (List.length s)))
  | _ => raise TypeError
  end.

(** [v[key]] for a key that an iteration produced. *)
Definition getitem (v key : pyval) : M pyval :=
  match key with
  | VStr k => getitem_str v k
  | VInt z =>
      if (0 <=? z)%Z then getitem_int v (Z.to_nat z)
      else match v with
           | VList l =>
               if (Z.of_nat (List.length l) + z <? 0)%Z then raise IndexError
               else getitem_int v (Z.to_nat (Z.of_nat (List.length l) + z))
           | VStr s =>
               if (Z.of_nat (List.length s) + z <? 0)%Z then raise IndexError
               else getitem_int v (Z.to_nat (Z.of_nat (List.length s) + z))
           | VDict _ => raise (KeyError (int_repr z))
           | _ => raise TypeError
           end
  | _ =>
      match v with
      | VDict _ => raise (KeyError (py_repr key))
      | _ => raise TypeError
      end
  end.

(** [v.get(key, default)] *)
Definition get_method (v : pyval) (key : str) (default : pyval) : M pyval :=
  match v with
  | VDict d => ret (match dict_get d key with Some x => x | None => default end)
  | _ => raise AttributeError
  end.

Fixpoint for_each {A} (xs : list A) (body : A -> M unit) : M unit :=
  match xs with
  | [] => ret tt
  | x :: rest => body x ;;; for_each rest body
  end.

Fixpoint map_m {A B} (f : A -> M B) (xs : list A) : M (list B) :=
  match xs with
  | [] => ret []
  | x :: rest => y <- f x ;; ys <- map_m f rest ;; ret (y :: ys)
  end.

(** The [try] block builds the mail, opens the session, submits and ends
    the session; whatever it raises is printed by the one clause. *)
Definition send_email (w : world) (to_email : pyval) (subject body : str)
  : M unit :=
  match smtp_sendmail w to_email subject body with
  | None =>
      emit (ESendmail to_email subject body) ;;;
      print (lit "Email sent successfully to " ++ py_str to_email
             ++ lit ": " ++ subject)
  | Some e =>
      print (lit "Error sending email to " ++ py_str to_email
             ++ lit ": " ++ e)
  end.

(** The body of the loop of [check_failure_rates]. *)
Definition check_failure_rate (w : world) (location : str) (data : pyval)
  : M unit :=
  present <- contains data (lit "failure_rate") ;;
  breach <- (if present
             then rate <- getitem_str data (lit "failure_rate") ;;
                  lift_result (py_gt rate (VFloat FAILURE_THRESHOLD))
             else ret false) ;;
  if breach then
    let subject := lit "FAILURE RATE ALERT: " ++ capitalize location in
    rate <- getitem_str data (lit "failure_rate") ;;
    rate_text <- lift_result (py_format rate (lit ".2%")) ;;
    threshold_text <-
      lift_result (py_format (VFloat FAILURE_THRESHOLD) (lit ".2%")) ;;
    let body := lit "The failure rate at " ++ capitalize location
                ++ lit " is " ++ rate_text
                ++ lit ", which exceeds the threshold of " ++ threshold_text
                ++ lit "." in
    to_email <- getitem_str data (lit "manager_email") ;;
    send_email w to_email subject body
  else ret tt.

(** The function is entered with no local bound; [data] is among the names
    its body binds, as a target of its [for] loop. *)
Definition check_failure_rates (w : world) (globals : namespace) : M unit :=
  let bound := [lit "location"; lit "data"; lit "subject"; lit "body"] in
  let locals : namespace := [] in
  mapping <- load_name bound locals globals (lit "data") ;;
  pairs <- items mapping ;;
  for_each pairs (fun p => check_failure_rate w (fst p) (snd p)).

(** The body of the loop of [detect_anomalies]. *)
Definition detect_anomaly (w : world) (average_sales : pyval)
  (location : str) (data : pyval) : M unit :=
  present <- contains data (lit "daily_financial_report") ;;
  high <- (if present
           then report <- getitem_str data (lit "daily_financial_report") ;;
                sales <- getitem_str report (lit "sales") ;;
                limit <- lift_result
                           (py_mul average_sales (VFloat ANOMALY_THRESHOLD)) ;;
                lift_result (py_gt sales limit)
           else ret false) ;;
  if high then
    let subject := lit "ANOMALY DETECTED: Unusual Sales at "
                   ++ capitalize location in
    report <- getitem_str data (lit "daily_financial_report") ;;
    sales <- getitem_str report (lit "sales") ;;
    average_text <- lift_result (py_format average_sales (lit ".2f")) ;;
    let body := lit "Anomalously high sales detected at "
                ++ capitalize location ++ lit ": " ++ py_str sales
                ++ lit " (Average: " ++ average_text ++ lit ")." in
    to_email <- getitem_str data (lit "manager_email") ;;
    send_email w to_email subject body
  else ret tt.

Definition detect_anomalies (w : world) (globals : namespace) : M unit :=
  let bound := [lit "average_sales"; lit "location"; lit "data";
                lit "subject"; lit "body"] in
  let locals : namespace := [] in
  condition <- load_name bound locals globals (lit "data") ;;
  average_sales <-
    (if py_truthy condition then
       mapping <- load_name bound locals globals (lit "data") ;;
       locs <- iterate mapping ;;
       sales <- map_m (fun loc =>
                         mapping <- load_name bound locals globals (lit "data") ;;
                         entry <- getitem mapping loc ;;
                         report <- getitem_str entry (lit "daily_financial_report") ;;
                         getitem_str report (lit "sales")) locs ;;
       total <- lift_result (py_sum sales) ;;
       mapping <- load_name bound locals globals (lit "data") ;;
       count <- len mapping ;;
       lift_result (py_truediv total count)
     else ret (VInt 0)) ;;
  let locals : namespace := [(lit "average_sales", average_sales)] in
  mapping <- load_name bound locals globals (lit "data") ;;
  pairs <- items mapping ;;
  for_each pairs (fun p => detect_anomaly w average_sales (fst p) (snd p)).

(** The body of the loop of [send_daily_financial_reports]. *)
Definition send_daily_financial_report (w : world) (subject_prefix : str)
  (location : str) (data : pyval) : M unit :=
  has_report <- contains data (lit "daily_financial_report") ;;
  has_email <- (if has_report then contains data (lit "manager_email")
                else ret false) ;;
  if has_email then
    financial <- getitem_str data (lit "daily_financial_report") ;;
    report <- lift_result (json_dumps_indent4 financial) ;;
    let subject := subject_prefix ++ lit ": " ++ capitalize location in
    let body := lit "Please find the daily financial report for "
                ++ capitalize location ++ lit " attached:" ++ nl ++ nl
                ++ report in
    to_email <- getitem_str data (lit "manager_email") ;;
    send_email w to_email subject body
  else
    print (lit "Warning: Could not send daily report for " ++ location
           ++ lit ". Missing financial data or manager email.").

Definition send_daily_financial_reports (w : world) (globals : namespace)
  : M unit :=
  let bound := [lit "now"; lit "subject_prefix"; lit "location"; lit "data";
                lit "report"; lit "subject"; lit "body"] in
  let locals : namespace := [] in
  let now := datetime_now w in
  let subject_prefix :=
    lit "Daily Financial Report (" ++ strftime now (lit "%Y-%m-%d") ++ lit ")" in
  mapping <- load_name bound locals globals (lit "data") ;;
  pairs <- items mapping ;;
  for_each pairs
    (fun p => send_daily_financial_report w subject_prefix (fst p) (snd p)).

(** The fourth scheduled function binds no [data]: there the name is the
    module's. *)
Definition send_monthly_tax_collection_report (w : world)
  (globals : namespace) : M unit :=
  let bound := [lit "now"; lit "total_tax_collection"; lit "subject";
                lit "body"; lit "central_manager_email"] in
  let locals : namespace := [] in
  let now := datetime_now w in
  if (day now =? 1)%Z then
    mapping <- load_name bound locals globals (lit "data") ;;
    locs <- iterate mapping ;;
    taxes <- map_m (fun loc =>
                      mapping <- load_name bound locals globals (lit "data") ;;
                      entry <- getitem mapping loc ;;
                      get_method entry (lit "monthly_tax_collection") (VInt 0))
               locs ;;
    total_tax_collection <- lift_result (py_sum taxes) ;;
    let subject := lit "Monthly Tax Collection Report ("
                   ++ strftime now (lit "%Y-%m") ++ lit ")" in
    total_text <- lift_result (py_format total_tax_collection (lit ".2f")) ;;
    let body := lit "Total tax collected across all locations for "
                ++ strftime now (lit "%Y-%m") ++ lit ": $" ++ total_text in
    let central_manager_email := VStr (lit "finance_manager@example.com") in
    send_email w central_manager_email subject body ;;;
    print (lit "Monthly tax collection report sent.")
  else
    print (lit "Not the first day of the month, skipping monthly tax report.").

End Alerting.

End Program.

Arguments ret {float A} a.
Arguments raise {float A} e.
Arguments lift {float A} r.
Arguments lift_result {float A} r.
Arguments print {float} text.
Arguments print_answer {float} x.
Arguments close {float}.
Arguments EConnect {float} database_path.
Arguments EExecute {float} sql.
Arguments EClose {float}.
Arguments EInvoke {float} model prompt.
Arguments EPrint {float} text.
Arguments SNull {float}.
Arguments SInt {float} z.
Arguments SText {float} s.
Arguments SBlob {float} b.
Arguments VNone {float}.
Arguments VBool {float} b.
Arguments VInt {float} z.
Arguments VStr {float} s.

(** ** Sample worlds

    Floats here are the whole-numbered ones, written with one decimal; no
    character beyond ASCII counts as printable, so [repr] escapes them all. *)

Module Sample.

Definition float : Type := Z.

#[global] Instance sample_interpreter : interpreter float := {
  float_repr f := int_repr f ++ lit ".0";
  float_truthy f := negb (Z.eqb f 0);
  isprintable c := false
}.

(** The catalog of a database with the one table
    [orders(id INTEGER PRIMARY KEY, amount REAL, location TEXT)]. *)
Definition orders_catalog : list (row float) := [[SText (lit "orders")]].

Definition orders_columns : list (row float) :=
  [ [SInt 0; SText (lit "id"); SText (lit "INTEGER");
     SInt 0; SNull; SInt 1];
    [SInt 1; SText (lit "amount"); SText (lit "REAL");
     SInt 0; SNull; SInt 0];
    [SInt 2; SText (lit "location"); SText (lit "TEXT");
     SInt 0; SNull; SInt 0] ].

(** A world whose database has the [orders] table, whose model answers
    every prompt with [completion], whose engine answers every other
    statement with [answer], and whose chat service answers every request
    with [reply]. *)
Definition sample_world (completion : exn + str)
  (answer : exn + list (row float)) (reply : exn + response float)
  : world float :=
  {| sqlite3_connect := fun _ => None;
     cursor_execute := fun _ sql =>
       if str_eqb sql catalog_query then inr orders_catalog
       else if str_eqb sql (lit "PRAGMA table_info(orders)")
            then inr orders_columns
            else answer;
     ollama_invoke := fun _ _ => completion;
     requests_post := fun _ _ _ => reply;
     smtp_sendmail := fun _ _ _ => None;
     datetime_now := {| year := 2025; month := 1; day := 1;
                        hour := 8; minute := 0; second := 0 |} |}.

Definition question : str := lit "total amount for location 'east'".

Definition total_query : str :=
  lit "SELECT SUM(amount) FROM orders WHERE location='east';".

Definition chat_reply (content : pyval float) : response float :=
  {| status_error := None;
     body_json :=
       inr (VDict [ (lit "choices",
                     VList [ VDict [ (lit "message",
                                      VDict [ (lit "role", VStr (lit "assistant"));
                                              (lit "content", content) ]) ] ]) ]) |}.

Definition good_reply : exn + response float :=
  inr (chat_reply (VStr (lit "The total amount for East is 150.0."))).

(** Scenario 1: everything answers. *)
Definition w_answers : world float :=
  sample_world (inr total_query) (inr [[SReal 150%Z]]) good_reply.

(** Scenario 2: the engine rejects the statement. *)
Definition w_no_table : world float :=
  sample_world (inr total_query)
    (inl (SqliteError (lit "no such table: orders"))) good_reply.

Definition w_syntax_error : world float :=
  sample_world (inr total_query)
    (inl (SqliteError (lit "near FROM: syntax error"))) good_reply.

(** Scenario 3: the model answers with nothing. *)
Definition w_empty_completion : world float :=
  sample_world (inr []) (inr [[SReal 150%Z]]) good_reply.

(** Scenario 4 and its siblings: the chat service fails in one of the three
    ways the rephraser handles. *)
Definition w_http_500 : world float :=
  sample_world (inr total_query) (inr [[SReal 150%Z]])
    (inr {| status_error := Some (lit "500 Server Error");
            body_json :=
              inl (RequestException
                     (lit "Expecting value: line 1 column 1 (char 0)")) |}).




End Sample.

(** ** Vocabulary of the statements *)

(** The texts a run prints, in order: what the user sees. *)
Fixpoint printed {float : Type} (t : list (event float)) : list str :=
  match t with
  | [] => []
  | EPrint text :: t' => text :: printed t'
  | _ :: t' => printed t'
  end.

(** A computation that prints nothing. *)
Definition quiet {float A : Type} (m : M float A) : Prop :=
  printed (trace m) = [].

(** A run that never calls the chat service. *)
Definition no_post {float : Type} (t : list (event float)) : Prop :=
  forall url headers payload, ~ In (EPost url headers payload) t.

(** A run in which no mail session goes through. *)
Definition no_mail {float : Type} (t : list (event float)) : Prop :=
  forall to_email subject body, ~ In (ESendmail to_email subject body) t.


(** ** Reading a literal back

    What Python reads when it is given the text of a literal: the inverse
    of [repr] on [int], [str] and [bytes], for the forms [repr] writes. *)









(** ** The command loop *)

Section Loop.

Variable float : Type.
Context {py : interpreter float}.

(** [str.lower], a table of the Unicode database. *)
Variable lower : str -> str.

(** What happens at the console and behind it while the loop runs. *)
Inductive console : Type :=
| Asked (prompt : str)      (* input(prompt): the prompt is shown, a line is read *)
| During (e : event float). (* a call made by the turn *)

Definition input_prompt : str :=
  lit "Enter your query (or type 'exit' to quit): ".

(** The [while True] loop of the main block, on the lines that standard
    input still holds.  [input] at the end of the input raises [EOFError],
    a class no clause of the program names. *)
Fixpoint main_loop (w : world float) (stdin : list str)
  : list console * result unit :=
  match stdin with
  | [] => ([Asked input_prompt],
           Raise (OtherException (lit "EOF when reading a line")))
  | user_prompt :: rest =>
      if str_eqb (lower user_prompt) (lit "exit")
      then ([Asked input_prompt], Ok tt)
      else
        match turn w user_prompt with
        | (t, Ok _) =>
            (Asked input_prompt :: map During t ++ fst (main_loop w rest),
             snd (main_loop w rest))
        | (t, Raise e) => (Asked input_prompt :: map During t, Raise e)
        end
  end.

End Loop.

Arguments Asked {float} prompt.
Arguments During {float} e.

(** ** More sample worlds *)

Module Cases.

Definition float : Type := Sample.float.

(** [str.lower] on texts of ASCII characters. *)
Definition ascii_lower (s : str) : str :=
  map (fun c => if (65 <=? c)%N && (c <=? 90)%N then (c + 32)%N else c) s.

(** The statement yields no row. *)
Definition w_zero_rows : world float :=
  Sample.sample_world (inr Sample.total_query) (inr []) Sample.good_reply.

(** The model surrounds its statement with white space. *)
Definition w_padded : world float :=
  Sample.sample_world
    (inr (lit "  " ++ nl ++ Sample.total_query ++ nl ++ lit " "))
    (inr [[SReal 150%Z]]) Sample.good_reply.

(** The model backend cannot be reached. *)
Definition w_model_down : world float :=
  Sample.sample_world (inl (OtherException (lit "connection refused")))
    (inr [[SReal 150%Z]]) Sample.good_reply.

(** The engine raises something that is no [sqlite3.Error]. *)
Definition w_not_an_engine_error : world float :=
  Sample.sample_world (inr Sample.total_query)
    (inl (OtherException (lit "You can only execute one statement at a time.")))
    Sample.good_reply.

(** The model's statement holds a surrogate on its own, and [execute]
    raises [UnicodeEncodeError] when it encodes the statement. *)
Definition broken_statement : str := lit "SELECT '" ++ [55357%N] ++ lit "'".

Definition w_surrogate_statement : world float :=
  Sample.sample_world (inr broken_statement) (inl ValueError)
    Sample.good_reply.


(** The database file cannot be opened. *)
Definition w_no_database : world float :=
  {| sqlite3_connect := fun _ =>
       Some (SqliteError (lit "unable to open database file"));
     cursor_execute := cursor_execute Sample.w_answers;
     ollama_invoke := ollama_invoke Sample.w_answers;
     requests_post := requests_post Sample.w_answers;
     smtp_sendmail := smtp_sendmail Sample.w_answers;
     datetime_now := datetime_now Sample.w_answers |}.

(** The catalog lists a table whose name is no identifier, and the engine
    rejects the [PRAGMA] written with it. *)
Definition w_odd_table_name : world float :=
  {| sqlite3_connect := fun _ => None;
     cursor_execute := fun _ sql =>
       if str_eqb sql catalog_query
       then inr [[SText (lit "order items")]]
       else inl (SqliteError (lit "near items: syntax error"));
     ollama_invoke := ollama_invoke Sample.w_answers;
     requests_post := requests_post Sample.w_answers;
     smtp_sendmail := smtp_sendmail Sample.w_answers;
     datetime_now := datetime_now Sample.w_answers |}.

(** The chat service answers with an empty list of choices. *)
Definition w_empty_choices : world float :=
  Sample.sample_world (inr Sample.total_query) (inr [[SReal 150%Z]])
    (inr {| status_error := None;
            body_json := inr (VDict [ (lit "choices", VList []) ]) |}).

(** The chat service answers with a message whose content is [null]. *)
Definition w_null_content : world float :=
  Sample.sample_world (inr Sample.total_query) (inr [[SReal 150%Z]])
    (inr (Sample.chat_reply VNone)).

(** The chat service answers with white space around its text. *)
Definition w_padded_reply : world float :=
  Sample.sample_world (inr Sample.total_query) (inr [[SReal 150%Z]])
    (inr (Sample.chat_reply (VStr (lit " The total is 150.0. " ++ nl)))).

End Cases.

(** ** More vocabulary *)

(** A statement run on the engine. *)
Definition is_execute {float : Type} (e : event float) : Prop :=
  exists sql, e = EExecute sql.

(** A run that never asks the local model. *)
Definition no_invoke {float : Type} (t : list (event float)) : Prop :=
  forall model prompt, ~ In (EInvoke model prompt) t.

(** The line of the description for one column, as [PRAGMA table_info]
    reports it: name, declared type, and the two flags. *)
Definition rendered_column {float : Type} {py : interpreter float}
  (column : row float) : str :=
  match column with
  | [cid; name; type; notnull; dflt_value; pk] =>
      lit "  Column: " ++ scalar_str name
      ++ lit ", Type: " ++ scalar_str type
      ++ (if scalar_truthy notnull then lit ", NOT NULL" else [])
      ++ (if scalar_truthy pk then lit ", PRIMARY KEY" else [])
      ++ nl
  | _ => []
  end.

(** The part of the description for one table. *)
Definition rendered_table {float : Type} {py : interpreter float}
  (table : scalar float) (columns : list (row float)) : str :=
  nl ++ lit "Table: " ++ scalar_str table ++ nl
  ++ List.concat (map rendered_column columns).

(** How the rephraser ends after its request, when [e] was raised in its
    [try] block: by the clause that names the class of [e], if one does. *)
Definition after_failure {float : Type} (request : event float) (e : exn)
  : M float (option str) :=
  match e with
  | RequestException msg =>
      ([request;
        EPrint (lit "Error communicating with DeepSeek API: " ++ msg)],
       Ok None)
  | JSONDecodeError =>
      ([request;
        EPrint (lit "Error decoding DeepSeek API response: Invalid JSON")],
       Ok None)
  | KeyError key =>
      ([request;
        EPrint (lit "Error extracting content from DeepSeek response.  Key not found: " ++ key)],
       Ok None)
  | _ => ([request], Raise e)
  end.

(** The text [print] shows for the rephraser's result. *)
Definition shown (x : option str) : str :=
  match x with
  | Some answer => answer
  | None => lit "None"
  end.

(** The tax an entry of the metrics mapping reports, [0] when it reports
    none: [entry.get("monthly_tax_collection", 0)]. *)
Definition tax_collected {float : Type} (entry : pyval float) : pyval float :=
  match entry with
  | VDict fields =>
      match dict_get fields (lit "monthly_tax_collection") with
      | Some tax => tax
      | None => VInt 0
      end
  | _ => VInt 0
  end.

(** ** A sample ledger

    A small interpreter and library for the alerting functions.  Its floats
    are the amounts that are a whole number of hundredths, with exact
    arithmetic on them (where Python rounds to the nearest double), and its
    operations know numbers and texts only. *)

Module Ledger.

Record amount : Type := { hundredths : Z }.

Definition digit (n : Z) : N := (48 + Z.to_N n)%N.

(** [repr] of an amount: [150.0], [0.05], [15.5]. *)
Definition amount_repr (a : amount) : str :=
  let z := hundredths a in
  let f := (Z.abs z mod 100)%Z in
  (if (z <? 0)%Z then lit "-" else [])
  ++ int_repr (Z.abs z / 100) ++ lit "."
  ++ (if (f mod 10 =? 0)%Z then [digit (f / 10)]
      else [digit (f / 10); digit (f mod 10)]).

#[global] Instance ledger_interpreter : interpreter amount := {
  float_repr := amount_repr;
  float_truthy a := negb (Z.eqb (hundredths a) 0);
  isprintable c := false
}.

(** A number, in hundredths; [bool] counts as [int]. *)
Definition in_hundredths (v : pyval amount) : option Z :=
  match v with
  | VBool b => Some (if b then 100 else 0)%Z
  | VInt n => Some (100 * n)%Z
  | VFloat a => Some (hundredths a)
  | _ => None
  end.

Definition is_float (v : pyval amount) : bool :=
  match v with
  | VFloat _ => true
  | _ => false
  end.

(** [format(x, ".2f")] for a number given in hundredths. *)
Definition fixed2 (z : Z) : str :=
  let f := (Z.abs z mod 100)%Z in
  (if (z <? 0)%Z then lit "-" else [])
  ++ int_repr (Z.abs z / 100) ++ lit "."
  ++ [digit (f / 10); digit (f mod 10)].

Definition add (x y : pyval amount) : result (pyval amount) :=
  match in_hundredths x, in_hundredths y with
  | Some a, Some b =>
      if is_float x || is_float y
      then Ok (VFloat {| hundredths := a + b |})
      else Ok (VInt ((a + b) / 100))
  | _, _ => Raise TypeError
  end.

Fixpoint sum_from (start : pyval amount) (xs : list (pyval amount))
  : result (pyval amount) :=
  match xs with
  | [] => Ok start
  | x :: rest =>
      match add start x with
      | Ok s => sum_from s rest
      | Raise e => Raise e
      end
  end.

Fixpoint text_ltb (a b : str) : bool :=
  match a, b with
  | _, [] => false
  | [], _ :: _ => true
  | x :: a', y :: b' => (x <? y)%N || ((x =? y)%N && text_ltb a' b')
  end.

Definition gt (x y : pyval amount) : result bool :=
  match in_hundredths x, in_hundredths y with
  | Some a, Some b => Ok (b <? a)%Z
  | _, _ =>
      match x, y with
      | VStr s, VStr t => Ok (text_ltb t s)
      | _, _ => Raise TypeError
      end
  end.

Definition mul (x y : pyval amount) : result (pyval amount) :=
  match in_hundredths x, in_hundredths y with
  | Some a, Some b =>
      if is_float x || is_float y
      then Ok (VFloat {| hundredths := a * b / 100 |})
      else Ok (VInt (a * b / 10000))
  | _, _ => Raise TypeError
  end.

Definition truediv (x y : pyval amount) : result (pyval amount) :=
  match in_hundredths x, in_hundredths y with
  | Some a, Some b =>
      if (b =? 0)%Z then Raise (OtherException (lit "division by zero"))
      else Ok (VFloat {| hundredths := 100 * a / b |})
  | _, _ => Raise TypeError
  end.

(** The two format specifications the program uses. *)
Definition format (v : pyval amount) (spec : str) : result str :=
  match in_hundredths v with
  | Some z =>
      if str_eqb spec (lit ".2f") then Ok (fixed2 z)
      else if str_eqb spec (lit ".2%") then Ok (fixed2 (100 * z) ++ lit "%")
      else Raise ValueError
  | None =>
      match v with
      | VStr _ => Raise ValueError
      | _ => Raise TypeError
      end
  end.

(** [str.capitalize] on texts of ASCII characters. *)
Definition ascii_upper (c : N) : N :=
  if (97 <=? c)%N && (c <=? 122)%N then (c - 32)%N else c.

Definition ascii_capitalize (s : str) : str :=
  match s with
  | [] => []
  | c :: rest => ascii_upper c :: Cases.ascii_lower rest
  end.

(** [json.dumps(v, indent=4)]. *)
Definition json_char (c : N) : str :=
  (if c =? 34 then [92; 34]
   else if c =? 92 then [92; 92]
   else if c =? 10 then [92; 110]
   else if c =? 13 then [92; 114]
   else if c =? 9 then [92; 116]
   else if c =? 8 then [92; 98]
   else if c =? 12 then [92; 102]
   else if (32 <=? c) && (c <=? 126) then [c]
   else if c <=? 65535 then [92; 117] ++ hex_fixed 4 c
   else [92; 117] ++ hex_fixed 4 (55296 + (c - 65536) / 1024)
        ++ [92; 117] ++ hex_fixed 4 (56320 + (c - 65536) mod 1024))%N.

Definition json_text (s : str) : str :=
  [34%N] ++ flat_map json_char s ++ [34%N].

Definition pad (level : nat) : str := repeat 32%N (4 * level).

Fixpoint json_dumps (level : nat) (v : pyval amount) : str :=
  match v with
  | VNone => lit "null"
  | VBool b => if b then lit "true" else lit "false"
  | VInt z => int_repr z
  | VFloat a => amount_repr a
  | VStr s => json_text s
  | VList [] => lit "[]"
  | VList l =>
      lit "[" ++ nl ++ pad (S level)
      ++ join (lit "," ++ nl ++ pad (S level)) (map (json_dumps (S level)) l)
      ++ nl ++ pad level ++ lit "]"
  | VDict [] => lit "{}"
  | VDict d =>
      lit "{" ++ nl ++ pad (S level)
      ++ join (lit "," ++ nl ++ pad (S level))
           (map (fun kv : str * pyval amount =>
                   let (k, x) := kv in
                   json_text k ++ lit ": " ++ json_dumps (S level) x) d)
      ++ nl ++ pad level ++ lit "}"
  end.

(** [strftime] with the directives [%Y], [%m], [%d] and [%%], for the years
    of four digits. *)
Definition two_digits (n : Z) : str := [digit (n / 10); digit (n mod 10)].

Fixpoint strftime (now : datetime) (fmt : str) : str :=
  match fmt with
  | [] => []
  | c :: rest =>
      match rest with
      | d :: rest' =>
          if (c =? 37)%N && (d =? 37)%N
          then 37%N :: strftime now rest'
          else if (c =? 37)%N && (d =? 89)%N
          then int_repr (year now) ++ strftime now rest'
          else if (c =? 37)%N && (d =? 109)%N
          then two_digits (month now) ++ strftime now rest'
          else if (c =? 37)%N && (d =? 100)%N
          then two_digits (day now) ++ strftime now rest'
          else c :: strftime now rest
      | [] => [c]
      end
  end.

#[global] Instance ledger_library : library amount := {
  FAILURE_THRESHOLD := {| hundredths := 5 |};
  ANOMALY_THRESHOLD := {| hundredths := 200 |};
  py_gt := gt;
  py_mul := mul;
  py_truediv := truediv;
  py_sum := sum_from (VInt 0);
  py_format := format;
  capitalize := ascii_capitalize;
  json_dumps_indent4 v := Ok (json_dumps 0 v);
  strftime := strftime
}.

(** A mail server that takes every mail, or refuses every mail, on a given
    date. *)
Definition ledger_world (refusal : option str) (now : datetime)
  : world amount :=
  {| sqlite3_connect := fun _ => None;
     cursor_execute := fun _ _ => inr [];
     ollama_invoke := fun _ _ => inr [];
     requests_post := fun _ _ _ =>
       inl (RequestException (lit "no chat service"));
     smtp_sendmail := fun _ _ _ => refusal;
     datetime_now := now |}.

Definition first_of_march : datetime :=
  {| year := 2025; month := 3; day := 1; hour := 8; minute := 0; second := 0 |}.

Definition second_of_march : datetime :=
  {| year := 2025; month := 3; day := 2; hour := 8; minute := 0; second := 0 |}.

(** Two locations; the second reports no tax. *)
Definition metrics : pyval amount :=
  VDict [ (lit "amman",
           VDict [ (lit "failure_rate", VFloat {| hundredths := 7 |});
                   (lit "monthly_tax_collection", VInt 1200);
                   (lit "manager_email", VStr (lit "amman@example.com")) ]);
          (lit "irbid",
           VDict [ (lit "manager_email", VStr (lit "irbid@example.com")) ]) ].

Definition module_with_data : namespace amount := [(lit "data", metrics)].

End Ledger.

(** * Properties *)

Unset Implicit Arguments.

(** ** Text *)

Lemma dropwhile_split (p : N -> bool) (s : str) :
  exists dropped, s = dropped ++ dropwhile p s /\ forallb p dropped = true.
Proof.
  induction s as [|c s IH]; simpl.
  - exists []. split; reflexivity.
  - destruct (p c) eqn:Hc.
    + destruct IH as [d [Hs Hd]]. exists (c :: d). simpl.
      rewrite Hc, Hd. split; [congruence | reflexivity].
    + exists []. split; reflexivity.
Qed.

Lemma dropwhile_head (p : N -> bool) (s : str) (c : N) (rest : str) :
  dropwhile p s = c :: rest -> p c = false.
Proof.
  induction s as [|x s IH]; simpl; [discriminate|].
  destruct (p x) eqn:Hx; [exact IH|].
  intros H. injection H as -> _. exact Hx.
Qed.

Lemma dropwhile_nil (p : N -> bool) (s : str) :
  dropwhile p s = [] <-> forallb p s = true.
Proof.
  induction s as [|x s IH]; simpl; [tauto|].
  destruct (p x); simpl; [exact IH|].
  split; discriminate.
Qed.

Lemma rstrip_split (s : str) :
  exists dropped, s = rstrip s ++ dropped /\ forallb isspace dropped = true.
Proof.
  unfold rstrip.
  destruct (dropwhile_split isspace (rev s)) as [d [Hs Hd]].
  exists (rev d). split.
  - rewrite <- rev_app_distr, <- Hs, rev_involutive. reflexivity.
  - rewrite forallb_forall in *. intros c Hc. apply Hd, in_rev, Hc.
Qed.

Lemma rstrip_last (s rest : str) (c : N) :
  rstrip s = rest ++ [c] -> isspace c = false.
Proof.
  unfold rstrip. intros H.
  apply (f_equal (@rev N)) in H.
  rewrite rev_involutive, rev_app_distr in H. simpl in H.
  exact (dropwhile_head _ _ _ _ H).
Qed.

Lemma strip_first (s rest : str) (c : N) :
  strip s = c :: rest -> isspace c = false.
Proof.
  unfold strip. intros H.
  destruct (rstrip_split (lstrip s)) as [d [Hs _]].
  rewrite H in Hs. simpl in Hs.
  exact (dropwhile_head isspace s _ _ Hs).
Qed.

Lemma strip_last (s rest : str) (c : N) :
  strip s = rest ++ [c] -> isspace c = false.
Proof. unfold strip. apply rstrip_last. Qed.

Lemma strip_nil (s : str) : strip s = [] <-> forallb isspace s = true.
Proof.
  unfold strip. split.
  - intros H.
    destruct (rstrip_split (lstrip s)) as [d [Hs Hd]].
    rewrite H in Hs. simpl in Hs.
    destruct (dropwhile_split isspace s) as [d' [Hs' Hd']].
    rewrite Hs'. unfold lstrip in Hs. rewrite Hs.
    rewrite forallb_app, Hd, Hd'. reflexivity.
  - intros H. apply dropwhile_nil in H. unfold lstrip. rewrite H.
    reflexivity.
Qed.




(** *** No repr holds a line feed *)











(** ** Literals read back *)




























(** ** The pipeline *)

Section Properties.

Variable float : Type.
Context {py : interpreter float}.

Implicit Types (w : world float) (t : list (event float)).

Lemma bind_ok {A B} t (a : A) (f : A -> M float B) :
  bind (t, Ok a) f = (t ++ fst (f a), snd (f a)).
Proof. reflexivity. Qed.

Lemma bind_raise {A B} t (e : exn) (f : A -> M float B) :
  bind (t, Raise e) f = (t, Raise e).
Proof. reflexivity. Qed.

Lemma bind_inv_ok {A B} (m : M float A) (f : A -> M float B) t (b : B) :
  bind m f = (t, Ok b) ->
  exists t1 a t2, m = (t1, Ok a) /\ f a = (t2, Ok b) /\ t = t1 ++ t2.
Proof.
  destruct m as [t1 [a|e]]; unfold bind; simpl; intros H; [|discriminate].
  exists t1, a, (fst (f a)). destruct (f a) as [t2 r]. simpl in *.
  injection H as <- ->. auto.
Qed.

(** *** What a computation prints *)

Lemma printed_app t1 t2 : printed (t1 ++ t2) = printed t1 ++ printed t2.
Proof.
  induction t1 as [|e t1 IH]; simpl; [reflexivity|].
  destruct e; simpl; rewrite IH; reflexivity.
Qed.

Lemma quiet_bind {A B} (m : M float A) (f : A -> M float B) :
  quiet m -> (forall a, quiet (f a)) -> quiet (bind m f).
Proof.
  unfold quiet, trace. destruct m as [t1 [a|e]]; unfold bind; simpl.
  - intros H1 H2. rewrite printed_app, H1, (H2 a). reflexivity.
  - auto.
Qed.

Lemma quiet_ret {A} (a : A) : quiet (@ret float A a).
Proof. reflexivity. Qed.

Lemma quiet_raise {A} (e : exn) : quiet (@raise float A e).
Proof. reflexivity. Qed.

Lemma quiet_lift {A} (r : exn + A) : quiet (@lift float A r).
Proof. destruct r; reflexivity. Qed.

Lemma quiet_connect w path : quiet (connect w path).
Proof.
  unfold connect. apply quiet_bind; [reflexivity|]. intros _.
  destruct (sqlite3_connect w path); reflexivity.
Qed.

Lemma quiet_execute w path sql : quiet (execute w path sql).
Proof.
  unfold execute. apply quiet_bind; [reflexivity|]. intros _.
  apply quiet_lift.
Qed.

Lemma quiet_first_columns (rows : list (row float)) :
  quiet (first_columns rows).
Proof.
  induction rows as [|r rows IH]; simpl; [reflexivity|].
  destruct r; [reflexivity|].
  apply quiet_bind; [exact IH|]. intros. reflexivity.
Qed.

Lemma quiet_describe_column (column : row float) :
  quiet (describe_column column).
Proof.
  unfold describe_column.
  repeat (destruct column as [|? column]; try reflexivity).
Qed.

Lemma quiet_describe_columns (columns : list (row float)) (acc : str) :
  quiet (describe_columns columns acc).
Proof.
  revert acc. induction columns as [|c columns IH]; intros acc; simpl.
  - reflexivity.
  - apply quiet_bind; [apply quiet_describe_column|]. intros. apply IH.
Qed.

Lemma quiet_describe_tables w path (tables : list (scalar float)) (acc : str) :
  quiet (describe_tables w path tables acc).
Proof.
  revert acc. induction tables as [|x tables IH]; intros acc; simpl.
  - reflexivity.
  - apply quiet_bind; [apply quiet_execute|]. intros.
    apply quiet_bind; [apply quiet_describe_columns|]. intros. apply IH.
Qed.

Lemma quiet_get_database_schema w path : quiet (get_database_schema w path).
Proof.
  unfold get_database_schema.
  apply quiet_bind; [apply quiet_connect|]. intros.
  apply quiet_bind; [apply quiet_execute|]. intros.
  apply quiet_bind; [apply quiet_first_columns|]. intros.
  apply quiet_bind; [apply quiet_describe_tables|]. intros.
  apply quiet_bind; reflexivity.
Qed.

Lemma quiet_generate_sql_langchain w prompt path model :
  quiet (generate_sql_langchain w prompt path model).
Proof.
  unfold generate_sql_langchain.
  apply quiet_bind; [apply quiet_get_database_schema|]. intros.
  apply quiet_bind; [|reflexivity].
  unfold invoke. apply quiet_bind; [reflexivity|]. intros. apply quiet_lift.
Qed.

(** A synthesis that returned had opened the database. *)
Lemma generate_sql_connected w prompt path model t sql :
  generate_sql_langchain w prompt path model = (t, Ok sql) ->
  sqlite3_connect w path = None.
Proof.
  unfold generate_sql_langchain, get_database_schema, connect.
  destruct (sqlite3_connect w path); [|reflexivity].
  intros H. discriminate H.
Qed.

(** *** The executor *)

Lemma fetch_data_rows w path sql (rows : list (row float)) :
  sqlite3_connect w path = None ->
  cursor_execute w path sql = inr rows ->
  fetch_data w path sql = ([EConnect path; EExecute sql; EClose],
                           Ok (Some rows)).
Proof.
  intros Hc Hx. unfold fetch_data, try_except, connect, execute, bind.
  rewrite Hc. simpl. rewrite Hx. reflexivity.
Qed.

Lemma fetch_data_execute_error w path sql (msg : str) :
  sqlite3_connect w path = None ->
  cursor_execute w path sql = inl (SqliteError msg) ->
  fetch_data w path sql =
    ([EConnect path; EExecute sql;
      EPrint (lit "SQLite error: " ++ msg)], Ok None).
Proof.
  intros Hc Hx. unfold fetch_data, try_except, connect, execute, bind.
  rewrite Hc. simpl. rewrite Hx. reflexivity.
Qed.

Lemma fetch_data_connect_error w path sql (msg : str) :
  sqlite3_connect w path = Some (SqliteError msg) ->
  fetch_data w path sql =
    ([EConnect path; EPrint (lit "SQLite error: " ++ msg)], Ok None).
Proof.
  intros Hc. unfold fetch_data, try_except, connect, execute, bind.
  rewrite Hc. reflexivity.
Qed.

(** *** The rephraser on no data *)

Lemma rephrase_absent w (prompt : str) :
  rephrase_answer_deepseek_api w prompt None
  = ([], Ok (Some (lit "No data found."))).
Proof. reflexivity. Qed.

(** C1, as the code has it.  In a turn whose synthesis returned a non-empty
    statement and whose executor returns, whatever the executor returns goes
    to the rephraser and the rephraser's answer goes to [print].  In
    particular a database error in the executor does not end the turn:
    [fetch_data] prints the engine's message and returns [None], [None] goes
    to the rephraser, the rephraser returns "No data found." without any
    call, and the turn prints that text and ends normally.  An executor that
    raises, which it does on any exception that is no [sqlite3.Error], ends
    the turn before the rephraser. *)
Theorem turn_rephrases_after_database_error :
  forall w (user_prompt : str) t (sql_query : str),
    generate_sql_langchain w user_prompt database_file ollama_model_name
      = (t, Ok sql_query) ->
    sql_query <> [] ->
    (forall tf data,
        fetch_data w database_file sql_query = (tf, Ok data) ->
        turn w user_prompt
        = (t ++ tf
             ++ trace (bind (rephrase_answer_deepseek_api w user_prompt data)
                         print_answer),
           outcome (bind (rephrase_answer_deepseek_api w user_prompt data)
                      print_answer)))
    /\ (forall msg,
           cursor_execute w database_file sql_query = inl (SqliteError msg) ->
           fetch_data w database_file sql_query
           = ([EConnect database_file; EExecute sql_query;
               EPrint (lit "SQLite error: " ++ msg)], Ok None)
           /\ rephrase_answer_deepseek_api w user_prompt None
              = ([], Ok (Some (lit "No data found.")))
           /\ turn w user_prompt
              = (t ++ [EConnect database_file; EExecute sql_query;
                       EPrint (lit "SQLite error: " ++ msg);
                       EPrint (lit "No data found.")], Ok tt))
    /\ (forall tf e,
           fetch_data w database_file sql_query = (tf, Raise e) ->
           turn w user_prompt = (t ++ tf, Raise e)).
Proof.
  intros w user_prompt t sql_query Hgen Hne.
  assert (Hturn : forall tf data,
    fetch_data w database_file sql_query = (tf, Ok data) ->
    turn w user_prompt
    = (t ++ tf
         ++ trace (bind (rephrase_answer_deepseek_api w user_prompt data)
                     print_answer),
       outcome (bind (rephrase_answer_deepseek_api w user_prompt data)
                  print_answer))).
  { intros tf data Hfetch. unfold turn. rewrite Hgen, bind_ok.
    destruct sql_query as [|c sql]; [congruence|].
    rewrite Hfetch, bind_ok. reflexivity. }
  split; [exact Hturn|]. split.
  - intros msg Herr.
    pose proof (generate_sql_connected _ _ _ _ _ _ Hgen) as Hconn.
    pose proof (fetch_data_execute_error _ _ _ _ Hconn Herr) as Hfetch.
    split; [exact Hfetch|]. split; [reflexivity|].
    rewrite (Hturn _ _ Hfetch). reflexivity.
  - intros tf e Hfetch. unfold turn. rewrite Hgen, bind_ok.
    destruct sql_query as [|c sql]; [congruence|].
    rewrite Hfetch. reflexivity.
Qed.

(** C3. On an empty result set the rephraser returns the fixed text
    "No data found." whatever the question is, and makes no outside call at
    all, so none to the chat service. *)
Theorem rephrase_empty_result_set :
  forall w (prompt : str),
    rephrase_answer_deepseek_api w prompt (Some [])
      = ([], Ok (Some (lit "No data found.")))
    /\ no_post (trace (rephrase_answer_deepseek_api w prompt (Some []))).
Proof.
  intros w prompt. split; [reflexivity|].
  intros url headers payload H. exact H.
Qed.

(** C2, as the code has it.  [generate_sql_langchain] either returns the
    model's completion with the white space at its two ends removed, or
    raises what schema introspection or the model backend raised.  The
    returned text starts and ends with no white-space character, and it is
    empty exactly when the completion was empty or all white space: an empty
    completion is returned as the empty text, it does not raise. *)
Theorem generate_sql_returns_trimmed_completion :
  forall w (prompt database_path ollama_model : str),
    match outcome (generate_sql_langchain w prompt database_path ollama_model) with
    | Ok sql_code =>
        exists schema completion,
          outcome (get_database_schema w database_path) = Ok schema
          /\ ollama_invoke w ollama_model (synthesis_prompt schema prompt)
             = inr completion
          /\ sql_code = strip completion
          /\ (forall c rest, sql_code = c :: rest -> isspace c = false)
          /\ (forall c rest, sql_code = rest ++ [c] -> isspace c = false)
          /\ (sql_code = [] <-> forallb isspace completion = true)
    | Raise e =>
        outcome (get_database_schema w database_path) = Raise e
        \/ exists schema,
             outcome (get_database_schema w database_path) = Ok schema
             /\ ollama_invoke w ollama_model (synthesis_prompt schema prompt)
                = inl e
    end.
Proof.
  intros w prompt path model. unfold generate_sql_langchain, outcome.
  destruct (get_database_schema w path) as [t [schema|e]].
  - rewrite bind_ok. unfold invoke. unfold emit at 1. rewrite bind_ok.
    destruct (ollama_invoke w model (synthesis_prompt schema prompt))
      as [e|completion] eqn:Hllm; simpl.
    + right. exists schema. auto.
    + exists schema, completion. repeat split; auto.
      * intros c rest. apply strip_first.
      * intros c rest. apply strip_last.
      * apply strip_nil.
      * apply strip_nil.
  - rewrite bind_raise. simpl. left. reflexivity.
Qed.

(** C4, as the code has it.  [fetch_data] returns the rows the statement
    produced, the empty list included; on an engine error, at connecting or
    at executing, it prints the engine's message and returns [None], a value
    that holds no message; an engine error never leaves the function as an
    exception. *)
Theorem fetch_data_rows_or_none :
  forall w (database_path sql_query : str),
    (forall rows,
        sqlite3_connect w database_path = None ->
        cursor_execute w database_path sql_query = inr rows ->
        outcome (fetch_data w database_path sql_query) = Ok (Some rows))
    /\ (forall msg,
           sqlite3_connect w database_path = Some (SqliteError msg)
           \/ (sqlite3_connect w database_path = None
               /\ cursor_execute w database_path sql_query
                  = inl (SqliteError msg)) ->
           outcome (fetch_data w database_path sql_query) = Ok None
           /\ printed (trace (fetch_data w database_path sql_query))
              = [lit "SQLite error: " ++ msg])
    /\ (forall msg,
           outcome (fetch_data w database_path sql_query)
           <> Raise (SqliteError msg)).
Proof.
  intros w path sql. split; [|split].
  - intros rows Hc Hx. rewrite (fetch_data_rows _ _ _ _ Hc Hx). reflexivity.
  - intros msg [Hc|[Hc Hx]].
    + rewrite (fetch_data_connect_error _ _ sql _ Hc). split; reflexivity.
    + rewrite (fetch_data_execute_error _ _ _ _ Hc Hx). split; reflexivity.
  - intros msg. unfold fetch_data, try_except, connect, execute, bind, outcome.
    simpl. destruct (sqlite3_connect w path) as [e|]; simpl.
    + destruct e; simpl; discriminate.
    + destruct (cursor_execute w path sql) as [e|rows]; simpl.
      * destruct e; simpl; discriminate.
      * discriminate.
Qed.

(** C6, as the code has it.  In a turn whose synthesis returned the empty
    statement nothing follows the synthesis: the executor and the rephraser
    are not run, nothing is printed, neither an answer nor a diagnostic, and
    the turn ends normally. *)
Theorem turn_empty_statement_is_silent :
  forall w (user_prompt : str) t,
    generate_sql_langchain w user_prompt database_file ollama_model_name
      = (t, Ok []) ->
    turn w user_prompt = (t, Ok tt)
    /\ printed (trace (turn w user_prompt)) = [].
Proof.
  intros w user_prompt t Hgen.
  assert (Hturn : turn w user_prompt = (t, Ok tt)).
  { unfold turn. rewrite Hgen, bind_ok. simpl. rewrite app_nil_r. reflexivity. }
  split; [exact Hturn|].
  rewrite Hturn.
  pose proof (quiet_generate_sql_langchain w user_prompt database_file
                ollama_model_name) as Hq.
  unfold quiet in Hq. rewrite Hgen in Hq. exact Hq.
Qed.

(** *** The rephraser's call *)

Lemma silent_bind {A B} (m : M float A) (f : A -> M float B) :
  trace m = [] -> (forall a, trace (f a) = []) -> trace (bind m f) = [].
Proof.
  unfold trace. destruct m as [t1 [a|e]]; unfold bind; simpl.
  - intros -> H. exact (H a).
  - auto.
Qed.

Lemma silent_getitem_str (v : pyval float) (key : str) :
  trace (getitem_str v key) = [].
Proof.
  destruct v; try reflexivity. simpl.
  destruct (dict_get d key); reflexivity.
Qed.

Lemma silent_getitem_int (v : pyval float) (i : nat) :
  trace (getitem_int v i) = [].
Proof.
  destruct v; try reflexivity; simpl.
  - destruct (nth_error s i); reflexivity.
  - destruct (nth_error l i); reflexivity.
Qed.

Lemma silent_extract_content (response_json : pyval float) :
  trace (extract_content response_json) = [].
Proof.
  unfold extract_content.
  apply silent_bind; [apply silent_getitem_str|]. intros.
  apply silent_bind; [apply silent_getitem_int|]. intros.
  apply silent_bind; [apply silent_getitem_str|]. intros.
  apply silent_bind; [apply silent_getitem_str|]. intros.
  destruct a2; reflexivity.
Qed.

(** The rephraser on rows, once the chat service has answered with a
    response of good status and a JSON body. *)
Lemma rephrase_on_body w (prompt : str) (r : row float) (rest : list (row float))
  (resp : response float) (j : pyval float) :
  requests_post w deepseek_url deepseek_headers
    (deepseek_payload prompt (r :: rest)) = inr resp ->
  status_error resp = None ->
  body_json resp = inr j ->
  rephrase_answer_deepseek_api w prompt (Some (r :: rest))
  = try_except
      (bind ([EPost deepseek_url deepseek_headers
                (deepseek_payload prompt (r :: rest))],
             outcome (extract_content j))
         (fun rephrased_answer => ret (Some rephrased_answer)))
      (fun e =>
         match e with
         | RequestException msg =>
             Some (bind (print (lit "Error communicating with DeepSeek API: " ++ msg))
                     (fun _ => ret None))
         | JSONDecodeError =>
             Some (bind (print (lit "Error decoding DeepSeek API response: Invalid JSON"))
                     (fun _ => ret None))
         | KeyError key =>
             Some (bind (print (lit "Error extracting content from DeepSeek response.  Key not found: " ++ key))
                     (fun _ => ret None))
         | _ => None
         end).
Proof.
  intros Hpost Hstatus Hbody.
  pose proof (silent_extract_content j) as Hs.
  unfold rephrase_answer_deepseek_api, try_except, post, raise_for_status,
    bind, emit, lift, ret, raise, outcome, trace in *.
  simpl. rewrite Hpost. simpl. rewrite Hstatus. simpl. rewrite Hbody. simpl.
  destruct (extract_content j) as [tj [a|e]]; simpl in *; subst tj;
    reflexivity.
Qed.


(** *** Rows as text *)








(** *** The schema description *)

Lemma bind_ext {A B} (m : M float A) (f g : A -> M float B) :
  (forall t a, m = (t, Ok a) -> f a = g a) -> bind m f = bind m g.
Proof.
  intros H. destruct m as [t [a|e]]; [|reflexivity].
  unfold bind. simpl. rewrite (H t a eq_refl). reflexivity.
Qed.

Lemma execute_ok_inv w path sql t (rows : list (row float)) :
  execute w path sql = (t, Ok rows) -> cursor_execute w path sql = inr rows.
Proof.
  unfold execute, bind, emit, lift. simpl.
  destruct (cursor_execute w path sql) as [e|rows']; simpl; intros H.
  - discriminate H.
  - injection H as _ ->. reflexivity.
Qed.

Lemma first_columns_in (rows : list (row float)) t tables table :
  first_columns rows = (t, Ok tables) ->
  In table tables ->
  exists rest, In (table :: rest) rows.
Proof.
  revert t tables. induction rows as [|r rows IH]; intros t tables; simpl.
  - intros H. injection H as _ <-. intros [].
  - destruct r as [|x rest]; [discriminate|].
    intros H. apply bind_inv_ok in H.
    destruct H as [t1 [xs [t2 [Hxs [Hret _]]]]].
    injection Hret as _ <-. intros [<-|Hin].
    + exists rest. left. reflexivity.
    + destruct (IH _ _ Hxs Hin) as [rest' Hrest]. exists rest'. right. exact Hrest.
Qed.

Lemma describe_tables_ext w1 w2 (path : str) (tables : list (scalar float))
  (acc : str) :
  (forall table, In table tables ->
     cursor_execute w1 path (table_info_query table)
     = cursor_execute w2 path (table_info_query table)) ->
  describe_tables w1 path tables acc = describe_tables w2 path tables acc.
Proof.
  revert acc. induction tables as [|x tables IH]; intros acc H; simpl.
  - reflexivity.
  - assert (Hexec : execute w2 path (table_info_query x)
                   = execute w1 path (table_info_query x)).
    { unfold execute. rewrite (H x (or_introl eq_refl)). reflexivity. }
    rewrite Hexec.
    apply bind_ext. intros _ columns _.
    apply bind_ext. intros _ acc' _.
    apply IH. intros table Hin. apply H. right. exact Hin.
Qed.

(** C9.  The schema description depends on nothing but the catalog and the
    column metadata: two runs of [get_database_schema] against databases
    that open alike, list the same tables and report the same columns for
    each listed table give the same text, character for character (and make
    the same calls). *)
Theorem schema_description_deterministic :
  forall w1 w2 (database_path : str),
    sqlite3_connect w1 database_path = sqlite3_connect w2 database_path ->
    cursor_execute w1 database_path catalog_query
      = cursor_execute w2 database_path catalog_query ->
    (forall rows table rest,
        cursor_execute w1 database_path catalog_query = inr rows ->
        In (table :: rest) rows ->
        cursor_execute w1 database_path (table_info_query table)
        = cursor_execute w2 database_path (table_info_query table)) ->
    get_database_schema w1 database_path = get_database_schema w2 database_path.
Proof.
  intros w1 w2 path Hconn Hcat Hcols.
  unfold get_database_schema, connect. rewrite <- Hconn.
  apply bind_ext. intros _ _ _.
  assert (Hexec : execute w2 path catalog_query = execute w1 path catalog_query).
  { unfold execute. rewrite Hcat. reflexivity. }
  rewrite Hexec.
  apply bind_ext. intros t rows Hrows.
  apply execute_ok_inv in Hrows.
  apply bind_ext. intros t' tables Htables.
  rewrite (describe_tables_ext w1 w2 path tables []); [reflexivity|].
  intros table Hin.
  destruct (first_columns_in _ _ _ _ Htables Hin) as [rest Hrest].
  exact (Hcols rows table rest Hrows Hrest).
Qed.

(** *** The scheduled functions *)

Section AlertingProperties.

Context {lib : library float}.

(** C10.  Each of [check_failure_rates], [detect_anomalies] and
    [send_daily_financial_reports] fails at its first read of [data]: the
    name is a target of the function's own loop, hence its local, still
    unbound, and not the module's mapping, whatever the module holds.  The
    call raises [UnboundLocalError] having made no outside call, so no mail
    goes out. *)
Theorem scheduled_alerts_raise_unbound_local :
  forall w (globals : namespace float),
    check_failure_rates w globals
      = ([], Raise (UnboundLocalError (lit "data")))
    /\ detect_anomalies w globals
       = ([], Raise (UnboundLocalError (lit "data")))
    /\ send_daily_financial_reports w globals
       = ([], Raise (UnboundLocalError (lit "data")))
    /\ no_mail (trace (check_failure_rates w globals))
    /\ no_mail (trace (detect_anomalies w globals))
    /\ no_mail (trace (send_daily_financial_reports w globals)).
Proof.
  intros w globals.
  repeat split; try reflexivity; intros to_email subject body H; exact H.
Qed.

(** By contrast the monthly report binds no [data] and reads the module's:
    on the first of a month, in a module without [data], it raises
    [NameError]. *)
Lemma monthly_report_reads_module_data w :
  day (datetime_now w) = 1%Z ->
  send_monthly_tax_collection_report w []
  = ([], Raise (NameError (lit "data"))).
Proof.
  intros Hday. unfold send_monthly_tax_collection_report.
  rewrite Hday. reflexivity.
Qed.

End AlertingProperties.

End Properties.

(** * The properties on the sample worlds *)


(** The description of the sample database. *)
Example schema_of_orders :
  outcome (get_database_schema Sample.w_answers database_file)
  = Ok (lit "
Table: orders
  Column: id, Type: INTEGER, PRIMARY KEY
  Column: amount, Type: REAL
  Column: location, Type: TEXT
").
Proof. vm_compute. reflexivity. Qed.

(** Scenario 1: the turn prints the rephrased answer. *)
Example scenario_1 :
  printed (trace (turn Sample.w_answers Sample.question))
  = [lit "The total amount for East is 150.0."].
Proof. vm_compute. reflexivity. Qed.

(** Scenario 4: on an error status the turn prints the rephraser's
    diagnostic and then the text of [None]. *)
Example scenario_4 :
  printed (trace (turn Sample.w_http_500 Sample.question))
  = [lit "Error communicating with DeepSeek API: 500 Server Error";
     lit "None"]
  /\ outcome (turn Sample.w_http_500 Sample.question) = Ok tt.
Proof. split; vm_compute; reflexivity. Qed.

(** C1 fails on the code: the model's statement holds a surrogate on its
    own, [execute] raises [UnicodeEncodeError] when it encodes the
    statement, [fetch_data] does not catch it, and the turn ends there: it
    raises after the call of [execute], without a request to the chat
    service and without a printed line. *)
Lemma turn_stops_before_rephrasing :
  outcome (generate_sql_langchain Cases.w_surrogate_statement Sample.question
             database_file ollama_model_name) = Ok Cases.broken_statement
  /\ Cases.broken_statement <> []
  /\ turn Cases.w_surrogate_statement Sample.question
     = (trace (generate_sql_langchain Cases.w_surrogate_statement
                 Sample.question database_file ollama_model_name)
        ++ [EConnect database_file; EExecute Cases.broken_statement],
        Raise ValueError)
  /\ printed (trace (turn Cases.w_surrogate_statement Sample.question)) = [].
Proof.
  split; [vm_compute; reflexivity|].
  split; [discriminate|].
  split; vm_compute; reflexivity.
Qed.

(** C1 as amended, on scenario 2: the engine answers "no such table:
    orders", and the turn still ends with the rephraser's
    "No data found.". *)
Lemma turn_rephrases_after_database_error_witness :
  turn Sample.w_no_table Sample.question
  = (trace (generate_sql_langchain Sample.w_no_table Sample.question
              database_file ollama_model_name)
     ++ [EConnect database_file; EExecute Sample.total_query;
         EPrint (lit "SQLite error: " ++ lit "no such table: orders");
         EPrint (lit "No data found.")], Ok tt).
Proof.
  assert (Hgen :
    generate_sql_langchain Sample.w_no_table Sample.question database_file
      ollama_model_name
    = (trace (generate_sql_langchain Sample.w_no_table Sample.question
                database_file ollama_model_name), Ok Sample.total_query))
    by (vm_compute; reflexivity).
  assert (Hne : Sample.total_query <> []) by discriminate.
  destruct (turn_rephrases_after_database_error Sample.float Sample.w_no_table
              Sample.question _ _ Hgen Hne) as [_ [Herr _]].
  destruct (Herr (lit "no such table: orders") eq_refl) as [_ [_ Hturn]].
  exact Hturn.
Defined.

(** C2 fails on the code: for a non-empty question and an empty completion
    of the model, [generate_sql_langchain] returns the empty text; it does
    not raise. *)
Lemma generate_sql_returns_empty_text :
  Sample.question <> []
  /\ ollama_invoke Sample.w_empty_completion ollama_model_name
       (synthesis_prompt
          (lit "
Table: orders
  Column: id, Type: INTEGER, PRIMARY KEY
  Column: amount, Type: REAL
  Column: location, Type: TEXT
") Sample.question) = inr []
  /\ outcome (generate_sql_langchain Sample.w_empty_completion Sample.question
                database_file ollama_model_name) = Ok [].
Proof.
  split; [discriminate|]. split; vm_compute; reflexivity.
Qed.

(** C2 as amended, on scenario 1. *)
Lemma generate_sql_returns_trimmed_completion_witness :
  exists schema completion,
    outcome (get_database_schema Sample.w_answers database_file) = Ok schema
    /\ ollama_invoke Sample.w_answers ollama_model_name
         (synthesis_prompt schema Sample.question) = inr completion
    /\ Sample.total_query = strip completion
    /\ (forall c rest, Sample.total_query = c :: rest -> isspace c = false)
    /\ (forall c rest, Sample.total_query = rest ++ [c] -> isspace c = false)
    /\ (Sample.total_query = [] <-> forallb isspace completion = true).
Proof.
  exact (generate_sql_returns_trimmed_completion Sample.float Sample.w_answers
           Sample.question database_file ollama_model_name).
Defined.

(** C4 fails on the code: two different engine messages give the same
    returned value, [None], so the value does not carry the message. *)
Lemma fetch_data_error_value_holds_no_message :
  cursor_execute Sample.w_no_table database_file Sample.total_query
    = inl (SqliteError (lit "no such table: orders"))
  /\ cursor_execute Sample.w_syntax_error database_file Sample.total_query
     = inl (SqliteError (lit "near FROM: syntax error"))
  /\ outcome (fetch_data Sample.w_no_table database_file Sample.total_query)
     = Ok None
  /\ outcome (fetch_data Sample.w_syntax_error database_file Sample.total_query)
     = Ok None.
Proof. repeat split; vm_compute; reflexivity. Qed.

(** C4 as amended, on scenarios 1 and 2. *)
Lemma fetch_data_rows_or_none_witness :
  outcome (fetch_data Sample.w_answers database_file Sample.total_query)
    = Ok (Some [[SReal 150%Z]])
  /\ outcome (fetch_data Sample.w_no_table database_file Sample.total_query)
     = Ok None
  /\ printed (trace (fetch_data Sample.w_no_table database_file Sample.total_query))
     = [lit "SQLite error: " ++ lit "no such table: orders"].
Proof.
  split.
  - apply (fetch_data_rows_or_none Sample.float Sample.w_answers database_file
             Sample.total_query); reflexivity.
  - apply (fetch_data_rows_or_none Sample.float Sample.w_no_table database_file
             Sample.total_query).
    right. split; reflexivity.
Defined.

(** C5 fails on the code, on scenario 2: the connection is opened, the
    statement is rejected, and the function returns without closing. *)
Lemma fetch_data_error_leaves_connection_open :
  fetch_data Sample.w_no_table database_file Sample.total_query
    = ([EConnect database_file; EExecute Sample.total_query;
        EPrint (lit "SQLite error: no such table: orders")], Ok None)
  /\ ~ In EClose
         (trace (fetch_data Sample.w_no_table database_file Sample.total_query)).
Proof.
  split; [vm_compute; reflexivity|].
  vm_compute. intros [H|[H|[H|[]]]]; discriminate H.
Qed.

(** C6 fails on the code, on scenario 3: the turn prints nothing, so no
    diagnostic either. *)
Lemma turn_empty_statement_prints_no_diagnostic :
  outcome (generate_sql_langchain Sample.w_empty_completion Sample.question
             database_file ollama_model_name) = Ok []
  /\ outcome (turn Sample.w_empty_completion Sample.question) = Ok tt
  /\ printed (trace (turn Sample.w_empty_completion Sample.question)) = [].
Proof. repeat split; vm_compute; reflexivity. Qed.

(** C6 as amended, on scenario 3. *)
Lemma turn_empty_statement_is_silent_witness :
  turn Sample.w_empty_completion Sample.question
    = (trace (generate_sql_langchain Sample.w_empty_completion Sample.question
                database_file ollama_model_name), Ok tt)
  /\ printed (trace (turn Sample.w_empty_completion Sample.question)) = [].
Proof.
  apply (turn_empty_statement_is_silent Sample.float).
  vm_compute. reflexivity.
Defined.




(** C9 on two worlds that differ in what the engine answers to the
    synthesized statement and agree on the catalog. *)
Lemma schema_description_deterministic_witness :
  get_database_schema Sample.w_answers database_file
  = get_database_schema Sample.w_no_table database_file.
Proof.
  apply (schema_description_deterministic Sample.float).
  - reflexivity.
  - reflexivity.
  - intros rows table rest Hrows Hin.
    vm_compute in Hrows. injection Hrows as <-.
    destruct Hin as [Hin|[]]. injection Hin as <- _.
    reflexivity.
Defined.

(** * Further properties of the program *)

Section MoreProperties.

Variable float : Type.
Context {py : interpreter float}.

Implicit Types (w : world float) (t : list (event float)).

(** ** Schema introspection *)

Lemma connect_eq w (path : str) :
  connect w path
  = ([EConnect path],
     match sqlite3_connect w path with
     | Some e => Raise e
     | None => Ok tt
     end).
Proof.
  unfold connect, bind, emit. simpl.
  destruct (sqlite3_connect w path); reflexivity.
Qed.

Lemma execute_eq w (path sql : str) :
  execute w path sql
  = ([EExecute sql],
     match cursor_execute w path sql with
     | inl e => Raise e
     | inr rows => Ok rows
     end).
Proof.
  unfold execute, bind, emit, lift. simpl.
  destruct (cursor_execute w path sql); reflexivity.
Qed.

Lemma forall_bind {A B} (P : event float -> Prop) (m : M float A)
  (f : A -> M float B) :
  Forall P (trace m) -> (forall a, Forall P (trace (f a))) ->
  Forall P (trace (bind m f)).
Proof.
  unfold trace. destruct m as [t1 [a|e]]; unfold bind; simpl.
  - intros H1 H2. apply Forall_app. split; [exact H1 | apply H2].
  - auto.
Qed.

Lemma silent_first_columns (rows : list (row float)) :
  trace (first_columns rows) = [].
Proof.
  induction rows as [|r rows IH]; simpl; [reflexivity|].
  destruct r; [reflexivity|].
  apply silent_bind; [exact IH|]. intros. reflexivity.
Qed.

Lemma silent_describe_columns (columns : list (row float)) (acc : str) :
  trace (describe_columns columns acc) = [].
Proof.
  revert acc. induction columns as [|c columns IH]; intros acc; simpl.
  - reflexivity.
  - apply silent_bind; [|intros; apply IH].
    unfold describe_column.
    repeat (destruct c as [|? c]; try reflexivity).
Qed.

Lemma describe_tables_executes w (path : str) (tables : list (scalar float))
  (acc : str) :
  Forall is_execute (trace (describe_tables w path tables acc)).
Proof.
  revert acc. induction tables as [|x tables IH]; intros acc; simpl.
  - constructor.
  - apply forall_bind.
    + rewrite execute_eq. repeat constructor. eexists. reflexivity.
    + intros columns. apply forall_bind.
      * rewrite silent_describe_columns. constructor.
      * intros acc'. apply IH.
Qed.

(** The calls of one run of [get_database_schema]: one connect, then
    statements only, then, if and only if the run returns, one close. *)
Lemma schema_trace_shape w (path : str) :
  exists t,
    Forall is_execute t
    /\ ((exists s,
            get_database_schema w path = (EConnect path :: t ++ [EClose], Ok s))
        \/ (exists e,
               get_database_schema w path = (EConnect path :: t, Raise e))).
Proof.
  unfold get_database_schema. rewrite connect_eq.
  destruct (sqlite3_connect w path) as [e|].
  { exists []. split; [constructor|]. right. exists e. reflexivity. }
  rewrite bind_ok, execute_eq.
  destruct (cursor_execute w path catalog_query) as [e|rows].
  { exists [EExecute catalog_query]. split.
    - repeat constructor. eexists. reflexivity.
    - right. exists e. reflexivity. }
  rewrite bind_ok.
  pose proof (silent_first_columns rows) as Hf. unfold trace in Hf.
  destruct (first_columns rows) as [tf [tables|e]]; simpl in Hf; subst tf.
  2:{ exists [EExecute catalog_query]. split.
      - repeat constructor. eexists. reflexivity.
      - right. exists e. reflexivity. }
  rewrite bind_ok.
  pose proof (describe_tables_executes w path tables []) as Hd.
  unfold trace in Hd.
  destruct (describe_tables w path tables []) as [td [s|e]]; simpl in Hd.
  - exists (EExecute catalog_query :: td). split.
    + constructor; [eexists; reflexivity | exact Hd].
    + left. exists s. reflexivity.
  - exists (EExecute catalog_query :: td). split.
    + constructor; [eexists; reflexivity | exact Hd].
    + right. exists e. reflexivity.
Qed.

Lemma not_close_of_execute t : Forall is_execute t -> ~ In EClose t.
Proof.
  intros H Hin. rewrite Forall_forall in H.
  destruct (H _ Hin) as [sql Hsql]. discriminate Hsql.
Qed.

(** X1.  [get_database_schema] closes its connection exactly when it
    returns: a run that returns made its one [close] as its last call, and
    a run that raises, whatever statement raised, made none. *)
Theorem schema_closes_only_on_return :
  forall w (database_path : str),
    (forall s,
        outcome (get_database_schema w database_path) = Ok s ->
        exists t,
          trace (get_database_schema w database_path)
          = EConnect database_path :: t ++ [EClose]
          /\ ~ In EClose t)
    /\ (forall e,
           outcome (get_database_schema w database_path) = Raise e ->
           ~ In EClose (trace (get_database_schema w database_path))).
Proof.
  intros w path.
  destruct (schema_trace_shape w path) as [t [Ht [[s Heq]|[e Heq]]]];
    rewrite Heq; unfold outcome, trace; simpl.
  - split; [|discriminate].
    intros _ _. exists t. split; [reflexivity|].
    apply not_close_of_execute, Ht.
  - split; [discriminate|].
    intros _ _ [H|H]; [discriminate H|].
    exact (not_close_of_execute _ Ht H).
Qed.

Lemma describe_columns_rendered (columns : list (row float)) (acc : str) :
  Forall (fun c => List.length c = 6) columns ->
  describe_columns columns acc
  = ([], Ok (acc ++ List.concat (map rendered_column columns))).
Proof.
  intros H. revert acc. induction H as [|c columns Hc _ IH]; intros acc.
  - simpl. rewrite app_nil_r. reflexivity.
  - do 7 (destruct c as [|? c]; try discriminate Hc).
    cbn [describe_columns].
    match goal with
    | |- context [describe_column ?c] =>
        change (describe_column c)
          with (@nil (event float), Ok (rendered_column c))
    end.
    rewrite bind_ok, IH.
    cbn [map List.concat fst snd]. rewrite <- app_assoc. reflexivity.
Qed.

Lemma describe_tables_rendered w (path : str)
  (columns_of : scalar float -> list (row float))
  (tables : list (scalar float)) (acc : str) :
  (forall table, In table tables ->
     cursor_execute w path (table_info_query table) = inr (columns_of table)
     /\ Forall (fun c => List.length c = 6) (columns_of table)) ->
  describe_tables w path tables acc
  = (map (fun table => EExecute (table_info_query table)) tables,
     Ok (acc ++ List.concat
                  (map (fun table => rendered_table table (columns_of table))
                     tables))).
Proof.
  revert acc. induction tables as [|x tables IH]; intros acc H.
  - simpl. rewrite app_nil_r. reflexivity.
  - destruct (H x (or_introl eq_refl)) as [Hx Hlen].
    cbn [describe_tables].
    rewrite execute_eq, Hx, bind_ok.
    rewrite (describe_columns_rendered _ _ Hlen), bind_ok.
    rewrite IH by (intros table Hin; apply H; right; exact Hin).
    cbn [map List.concat fst snd]. unfold rendered_table.
    rewrite <- !app_assoc. reflexivity.
Qed.

Lemma first_columns_heads (rows : list (row float))
  (tables : list (scalar float)) :
  Forall2 (fun r table => hd_error r = Some table) rows tables ->
  first_columns rows = ([], Ok tables).
Proof.
  intros H. induction H as [|r table rows tables Hr _ IH]; simpl.
  - reflexivity.
  - destruct r as [|x rest]; [discriminate Hr|].
    injection Hr as ->. rewrite IH. reflexivity.
Qed.

(** X2.  When the database opens, the catalog query gives rows whose first
    values are [tables], and [PRAGMA table_info] gives six-valued rows for
    each of them, the description is the tables' parts one after the other,
    each table once and in the order of the catalog, its columns in the
    order the engine reported them; and the run is one connect, the catalog
    query, one [PRAGMA] per table in that order, one close. *)
Theorem schema_lists_tables_in_catalog_order :
  forall w (database_path : str) (rows : list (row float))
         (tables : list (scalar float))
         (columns_of : scalar float -> list (row float)),
    sqlite3_connect w database_path = None ->
    cursor_execute w database_path catalog_query = inr rows ->
    Forall2 (fun r table => hd_error r = Some table) rows tables ->
    (forall table, In table tables ->
       cursor_execute w database_path (table_info_query table)
       = inr (columns_of table)
       /\ Forall (fun c => List.length c = 6) (columns_of table)) ->
    get_database_schema w database_path
    = (EConnect database_path :: EExecute catalog_query
         :: map (fun table => EExecute (table_info_query table)) tables
         ++ [EClose],
       Ok (List.concat
             (map (fun table => rendered_table table (columns_of table))
                tables))).
Proof.
  intros w path rows tables columns_of Hconn Hcat Hrows Hcols.
  unfold get_database_schema.
  rewrite connect_eq, Hconn, bind_ok, execute_eq, Hcat, bind_ok.
  rewrite (first_columns_heads _ _ Hrows), bind_ok.
  rewrite (describe_tables_rendered _ _ columns_of _ _ Hcols), bind_ok.
  reflexivity.
Qed.

(** ** Synthesis *)

Lemma not_invoke_of_schema w (path : str) :
  no_invoke (trace (get_database_schema w path)).
Proof.
  intros model prompt Hin.
  destruct (schema_trace_shape w path) as [t [Ht [[s Heq]|[e Heq]]]];
    rewrite Heq in Hin; unfold trace in Hin; simpl in Hin;
    destruct Hin as [Hin|Hin]; try discriminate Hin.
  - apply in_app_or in Hin. destruct Hin as [Hin|[Hin|[]]];
      [|discriminate Hin].
    rewrite Forall_forall in Ht. destruct (Ht _ Hin) as [sql H].
    discriminate H.
  - rewrite Forall_forall in Ht. destruct (Ht _ Hin) as [sql H].
    discriminate H.
Qed.

(** X3.  Once the schema is read, [generate_sql_langchain] asks the model
    exactly once, with the given model name and a prompt that holds the
    schema description and the question unchanged between fixed texts; it
    returns the completion stripped, or raises what the model raised,
    without a second try. *)
Theorem synthesis_asks_the_model_once :
  forall w (prompt database_path ollama_model : str) ts (schema : str),
    get_database_schema w database_path = (ts, Ok schema) ->
    generate_sql_langchain w prompt database_path ollama_model
    = (ts ++ [EInvoke ollama_model (synthesis_prompt schema prompt)],
       match ollama_invoke w ollama_model (synthesis_prompt schema prompt) with
       | inl e => Raise e
       | inr completion => Ok (strip completion)
       end)
    /\ no_invoke ts
    /\ exists before between after,
         forall schema' prompt' : str,
           synthesis_prompt schema' prompt'
           = before ++ schema' ++ between ++ prompt' ++ after.
Proof.
  intros w prompt path model ts schema Hschema. split; [|split].
  - unfold generate_sql_langchain. rewrite Hschema, bind_ok.
    unfold invoke, emit, lift, bind. simpl.
    destruct (ollama_invoke w model (synthesis_prompt schema prompt));
      reflexivity.
  - pose proof (not_invoke_of_schema w path) as H.
    rewrite Hschema in H. exact H.
  - exists (lit "You are a helpful AI assistant that translates natural language queries into SQL code for a SQLite database."
            ++ nl ++ lit "    Here is the schema of the database:"
            ++ nl ++ lit "    ").
    exists (nl ++ lit "    Only return the SQL code. Do not provide any explanations or surrounding text."
            ++ nl ++ lit "    Make sure to use table and column names exactly as they appear in the schema."
            ++ nl
            ++ nl ++ lit "    User query: ").
    exists (nl ++ lit "    SQL code:" ++ nl ++ lit "    ").
    intros schema' prompt'. unfold synthesis_prompt.
    repeat rewrite <- app_assoc. reflexivity.
Qed.

(** X4.  When schema introspection raises, [generate_sql_langchain] raises
    the same exception after the same calls, and the model is never
    asked. *)
Theorem synthesis_stops_at_schema_failure :
  forall w (prompt database_path ollama_model : str) ts (e : exn),
    get_database_schema w database_path = (ts, Raise e) ->
    generate_sql_langchain w prompt database_path ollama_model = (ts, Raise e)
    /\ no_invoke
         (trace (generate_sql_langchain w prompt database_path ollama_model)).
Proof.
  intros w prompt path model ts e Hschema.
  assert (Hgen : generate_sql_langchain w prompt path model = (ts, Raise e)).
  { unfold generate_sql_langchain. rewrite Hschema. reflexivity. }
  split; [exact Hgen|].
  rewrite Hgen. pose proof (not_invoke_of_schema w path) as H.
  rewrite Hschema in H. exact H.
Qed.

Lemma strip_split (s : str) :
  exists before after,
    s = before ++ strip s ++ after
    /\ forallb isspace before = true
    /\ forallb isspace after = true.
Proof.
  destruct (dropwhile_split isspace s) as [before [Hs Hb]].
  destruct (rstrip_split (lstrip s)) as [after [Hl Ha]].
  exists before, after. split; [|split; assumption].
  unfold strip. rewrite <- Hl. exact Hs.
Qed.

(** X5.  The statement [generate_sql_langchain] returns is the model's
    completion with nothing but white space taken away, and only at its two
    ends: the completion is the statement between two runs of white-space
    characters.  Nothing inside the completion is changed or checked. *)
Theorem synthesis_only_trims :
  forall w (prompt database_path ollama_model : str) t (sql_code : str),
    generate_sql_langchain w prompt database_path ollama_model
      = (t, Ok sql_code) ->
    exists schema completion before after,
      ollama_invoke w ollama_model (synthesis_prompt schema prompt)
        = inr completion
      /\ completion = before ++ sql_code ++ after
      /\ forallb isspace before = true
      /\ forallb isspace after = true.
Proof.
  intros w prompt path model t sql_code Hgen.
  unfold generate_sql_langchain in Hgen.
  apply bind_inv_ok in Hgen.
  destruct Hgen as [ts [schema [t2 [_ [Hrest _]]]]].
  apply bind_inv_ok in Hrest.
  destruct Hrest as [ti [completion [t3 [Hinvoke [Hret _]]]]].
  injection Hret as _ <-.
  unfold invoke, emit, lift, bind in Hinvoke. simpl in Hinvoke.
  destruct (ollama_invoke w model (synthesis_prompt schema prompt))
    as [e|c] eqn:Hllm; simpl in Hinvoke; [discriminate Hinvoke|].
  injection Hinvoke as _ <-.
  destruct (strip_split c) as [before [after [Hc [Hb Ha]]]].
  exists schema, c, before, after. auto.
Qed.

(** ** The executor *)

(** [fetch_data] case by case. *)
Lemma fetch_data_eq w (path sql : str) :
  fetch_data w path sql
  = match sqlite3_connect w path with
    | Some (SqliteError msg) =>
        ([EConnect path; EPrint (lit "SQLite error: " ++ msg)], Ok None)
    | Some e => ([EConnect path], Raise e)
    | None =>
        match cursor_execute w path sql with
        | inr rows => ([EConnect path; EExecute sql; EClose], Ok (Some rows))
        | inl (SqliteError msg) =>
            ([EConnect path; EExecute sql;
              EPrint (lit "SQLite error: " ++ msg)], Ok None)
        | inl e => ([EConnect path; EExecute sql], Raise e)
        end
    end.
Proof.
  unfold fetch_data, try_except, connect, execute, bind, close, print, emit,
    lift, ret, raise.
  simpl. destruct (sqlite3_connect w path) as [e|]; simpl.
  - destruct e; reflexivity.
  - destruct (cursor_execute w path sql) as [e|rows]; simpl.
    + destruct e; reflexivity.
    + reflexivity.
Qed.

Ltac close_absent :=
  let H := fresh in
  intros H; simpl in H;
  repeat (destruct H as [H|H]; [discriminate H|]); exfalso; exact H.

(** X6.  [fetch_data] closes its connection exactly when it returns rows:
    whenever it returns [None] or raises, the connection it may have opened
    is left open. *)
Theorem fetch_data_closes_iff_rows :
  forall w (database_path sql_query : str),
    In EClose (trace (fetch_data w database_path sql_query))
    <-> exists rows,
          outcome (fetch_data w database_path sql_query) = Ok (Some rows).
Proof.
  intros w path sql. rewrite fetch_data_eq. unfold trace, outcome.
  destruct (sqlite3_connect w path) as [e|].
  - destruct e; simpl; (split; [close_absent | intros [rows H]; discriminate H]).
  - destruct (cursor_execute w path sql) as [e|rows].
    + destruct e; simpl;
        (split; [close_absent | intros [rows H]; discriminate H]).
    + simpl. split; [intros _; exists rows; reflexivity|].
      intros _. right. right. left. reflexivity.
Qed.

(** X7.  An exception of the engine that is no [sqlite3.Error] is not
    handled by [fetch_data]: it leaves the function as it is, nothing is
    printed and the connection is not closed. *)
Theorem fetch_data_other_exception_propagates :
  forall w (database_path sql_query : str) (e : exn),
    (forall msg, e <> SqliteError msg) ->
    sqlite3_connect w database_path = Some e
    \/ (sqlite3_connect w database_path = None
        /\ cursor_execute w database_path sql_query = inl e) ->
    outcome (fetch_data w database_path sql_query) = Raise e
    /\ printed (trace (fetch_data w database_path sql_query)) = []
    /\ ~ In EClose (trace (fetch_data w database_path sql_query)).
Proof.
  intros w path sql e Hne Hcase. rewrite fetch_data_eq. unfold trace, outcome.
  destruct Hcase as [Hc|[Hc Hx]]; rewrite Hc; [|rewrite Hx];
    destruct e; try (specialize (Hne msg); congruence); simpl;
    (split; [reflexivity|]; split; [reflexivity|]); close_absent.
Qed.

(** ** The rephraser *)

(** [rephrase_answer_deepseek_api] on rows, case by case. *)
Lemma rephrase_eq w (prompt : str) (r : row float) (rest : list (row float)) :
  rephrase_answer_deepseek_api w prompt (Some (r :: rest))
  = match requests_post w deepseek_url deepseek_headers
            (deepseek_payload prompt (r :: rest)) with
    | inl e =>
        after_failure
          (EPost deepseek_url deepseek_headers
             (deepseek_payload prompt (r :: rest))) e
    | inr resp =>
        match status_error resp with
        | Some msg =>
            after_failure
              (EPost deepseek_url deepseek_headers
                 (deepseek_payload prompt (r :: rest)))
              (RequestException msg)
        | None =>
            match body_json resp with
            | inl e =>
                after_failure
                  (EPost deepseek_url deepseek_headers
                     (deepseek_payload prompt (r :: rest))) e
            | inr response_json =>
                match outcome (extract_content response_json) with
                | Ok answer =>
                    ([EPost deepseek_url deepseek_headers
                        (deepseek_payload prompt (r :: rest))],
                     Ok (Some answer))
                | Raise e =>
                    after_failure
                      (EPost deepseek_url deepseek_headers
                         (deepseek_payload prompt (r :: rest))) e
                end
            end
        end
    end.
Proof.
  destruct (requests_post w deepseek_url deepseek_headers
              (deepseek_payload prompt (r :: rest))) as [e|resp] eqn:Hpost.
  { unfold rephrase_answer_deepseek_api, try_except, post, bind, emit, lift,
      ret, raise, print, after_failure.
    simpl. rewrite Hpost. destruct e; reflexivity. }
  destruct (status_error resp) as [msg|] eqn:Hstatus.
  { unfold rephrase_answer_deepseek_api, try_except, post, raise_for_status,
      bind, emit, lift, ret, raise, print, after_failure.
    simpl. rewrite Hpost. simpl. rewrite Hstatus. reflexivity. }
  destruct (body_json resp) as [e|j] eqn:Hbody.
  { unfold rephrase_answer_deepseek_api, try_except, post, raise_for_status,
      bind, emit, lift, ret, raise, print, after_failure.
    simpl. rewrite Hpost. simpl. rewrite Hstatus. simpl. rewrite Hbody.
    destruct e; reflexivity. }
  rewrite (rephrase_on_body _ _ _ _ _ _ _ Hpost Hstatus Hbody).
  unfold try_except, bind, ret, print, emit, after_failure, outcome.
  simpl. destruct (snd (extract_content j)) as [a|e]; [reflexivity|].
  destruct e; reflexivity.
Qed.

Lemma extract_content_well_formed (d choice message : list (str * pyval float))
  (more : list (pyval float)) (content : pyval float) :
  dict_get d (lit "choices") = Some (VList (VDict choice :: more)) ->
  dict_get choice (lit "message") = Some (VDict message) ->
  dict_get message (lit "content") = Some content ->
  extract_content (VDict d) = strip_method content.
Proof.
  intros Hc Hm Hx.
  unfold extract_content, getitem_str, bind, ret, raise.
  rewrite Hc. cbn [fst snd app getitem_int nth_error ret].
  unfold ret. cbn [fst snd app]. rewrite Hm. cbn [fst snd app].
  rewrite Hx. cbn [fst snd app].
  destruct (strip_method content) as [ts res]. reflexivity.
Qed.

(** X8.  On rows, when the chat service answers with a good status and a
    JSON body that has a text at [choices[0].message.content], the
    rephraser makes that one request, prints nothing, and returns the text
    with the white space at its two ends removed; the returned text is empty
    exactly when the service's text was empty or all white space. *)
Theorem rephrase_returns_trimmed_content :
  forall w (prompt : str) (rows : list (row float)) (resp : response float)
         (d choice message : list (str * pyval float))
         (more : list (pyval float)) (content : str),
    rows <> [] ->
    requests_post w deepseek_url deepseek_headers
      (deepseek_payload prompt rows) = inr resp ->
    status_error resp = None ->
    body_json resp = inr (VDict d) ->
    dict_get d (lit "choices") = Some (VList (VDict choice :: more)) ->
    dict_get choice (lit "message") = Some (VDict message) ->
    dict_get message (lit "content") = Some (VStr content) ->
    rephrase_answer_deepseek_api w prompt (Some rows)
    = ([EPost deepseek_url deepseek_headers (deepseek_payload prompt rows)],
       Ok (Some (strip content)))
    /\ (strip content = [] <-> forallb isspace content = true).
Proof.
  intros w prompt rows resp d choice message more content
    Hne Hpost Hstatus Hbody Hc Hm Hx.
  split; [|apply strip_nil].
  destruct rows as [|r rest]; [congruence|].
  rewrite rephrase_eq, Hpost, Hstatus, Hbody.
  rewrite (extract_content_well_formed _ _ _ _ _ Hc Hm Hx). reflexivity.
Qed.

(** X9.  Three bodies the rephraser has no clause for: an empty [choices]
    list, a body that is a JSON array, and a [content] that is no text.
    The [IndexError], [TypeError] or [AttributeError] they cause leaves the
    function as an exception, after the request and with nothing printed. *)
Theorem rephrase_unhandled_bodies_raise :
  forall w (prompt : str) (rows : list (row float)) (resp : response float),
    rows <> [] ->
    requests_post w deepseek_url deepseek_headers
      (deepseek_payload prompt rows) = inr resp ->
    status_error resp = None ->
    (forall d,
        body_json resp = inr (VDict d) ->
        dict_get d (lit "choices") = Some (VList []) ->
        rephrase_answer_deepseek_api w prompt (Some rows)
        = ([EPost deepseek_url deepseek_headers (deepseek_payload prompt rows)],
           Raise IndexError))
    /\ (forall l,
           body_json resp = inr (VList l) ->
           rephrase_answer_deepseek_api w prompt (Some rows)
           = ([EPost deepseek_url deepseek_headers (deepseek_payload prompt rows)],
              Raise TypeError))
    /\ (forall d choice message more content,
           body_json resp = inr (VDict d) ->
           dict_get d (lit "choices") = Some (VList (VDict choice :: more)) ->
           dict_get choice (lit "message") = Some (VDict message) ->
           dict_get message (lit "content") = Some content ->
           (forall s, content <> VStr s) ->
           rephrase_answer_deepseek_api w prompt (Some rows)
           = ([EPost deepseek_url deepseek_headers (deepseek_payload prompt rows)],
              Raise AttributeError)).
Proof.
  intros w prompt rows resp Hne Hpost Hstatus.
  destruct rows as [|r rest]; [congruence|].
  split; [|split].
  - intros d Hbody Hc. rewrite rephrase_eq, Hpost, Hstatus, Hbody.
    assert (He : extract_content (VDict d) = ([], Raise IndexError)).
    { unfold extract_content. unfold getitem_str at 1. rewrite Hc.
      reflexivity. }
    rewrite He. reflexivity.
  - intros l Hbody. rewrite rephrase_eq, Hpost, Hstatus, Hbody. reflexivity.
  - intros d choice message more content Hbody Hc Hm Hx Hno.
    rewrite rephrase_eq, Hpost, Hstatus, Hbody.
    rewrite (extract_content_well_formed _ _ _ _ _ Hc Hm Hx).
    destruct content; try reflexivity.
    exfalso. exact (Hno s eq_refl).
Qed.

(** ** The turn *)

(** [turn] stage by stage. *)
Lemma turn_eq w (user_prompt : str) :
  turn w user_prompt
  = match generate_sql_langchain w user_prompt database_file
            ollama_model_name with
    | (t, Raise e) => (t, Raise e)
    | (t, Ok []) => (t, Ok tt)
    | (t, Ok (c :: sql)) =>
        match fetch_data w database_file (c :: sql) with
        | (tf, Raise e) => (t ++ tf, Raise e)
        | (tf, Ok data) =>
            match rephrase_answer_deepseek_api w user_prompt data with
            | (tr, Raise e) => (t ++ tf ++ tr, Raise e)
            | (tr, Ok x) =>
                if existsb is_surrogate (shown x)
                then (t ++ tf ++ tr, Raise ValueError)
                else (t ++ tf ++ tr ++ [EPrint (shown x)], Ok tt)
            end
        end
    end.
Proof.
  unfold turn.
  destruct (generate_sql_langchain w user_prompt database_file
              ollama_model_name) as [t [sql|e]]; [|reflexivity].
  rewrite bind_ok. destruct sql as [|c sql].
  { simpl. rewrite app_nil_r. reflexivity. }
  destruct (fetch_data w database_file (c :: sql)) as [tf [data|e]];
    [|reflexivity].
  rewrite bind_ok.
  destruct (rephrase_answer_deepseek_api w user_prompt data) as [tr [x|e]];
    [|reflexivity].
  rewrite bind_ok. unfold print_answer, print, emit, raise, shown.
  destruct (existsb is_surrogate _);
    cbn [fst snd]; [rewrite app_nil_r|]; reflexivity.
Qed.


Lemma schema_events w (path : str) :
  Forall (fun e => e = EConnect path \/ is_execute e \/ e = EClose)
    (trace (get_database_schema w path)).
Proof.
  destruct (schema_trace_shape w path) as [t [Ht [[s Heq]|[e Heq]]]];
    rewrite Heq; unfold trace; simpl.
  - constructor; [left; reflexivity|].
    apply Forall_app. split.
    + eapply Forall_impl; [|exact Ht]. intros a Ha. right. left. exact Ha.
    + constructor; [right; right; reflexivity | constructor].
  - constructor; [left; reflexivity|].
    eapply Forall_impl; [|exact Ht]. intros a Ha. right. left. exact Ha.
Qed.

Lemma no_post_of_synthesis w (prompt path model : str) :
  no_post (trace (generate_sql_langchain w prompt path model)).
Proof.
  intros url headers payload Hin.
  assert (Hs : ~ In (EPost url headers payload)
                 (trace (get_database_schema w path))).
  { intros H. pose proof (schema_events w path) as Hall.
    rewrite Forall_forall in Hall.
    destruct (Hall _ H) as [He|[[sql He]|He]]; discriminate He. }
  unfold generate_sql_langchain in Hin. unfold trace in *.
  destruct (get_database_schema w path) as [ts [schema|e]]; simpl in *.
  - unfold invoke, emit, lift, bind in Hin. simpl in Hin.
    apply in_app_or in Hin. destruct Hin as [Hin|Hin]; [exact (Hs Hin)|].
    destruct (ollama_invoke w model (synthesis_prompt schema prompt));
      simpl in Hin; destruct Hin as [Hin|Hin]; try discriminate Hin;
      exact Hin.
  - exact (Hs Hin).
Qed.

Lemma no_post_of_fetch_data w (path sql : str) :
  no_post (trace (fetch_data w path sql)).
Proof.
  intros url headers payload. rewrite fetch_data_eq. unfold trace.
  destruct (sqlite3_connect w path) as [e|].
  - destruct e; close_absent.
  - destruct (cursor_execute w path sql) as [e|rows]; [|close_absent].
    destruct e; close_absent.
Qed.

(** X11.  A statement that yields no row: the turn closes the connection,
    prints "No data found." and ends normally, and the chat service is not
    called at any point of the turn. *)
Theorem turn_on_zero_rows :
  forall w (user_prompt : str) t (sql_query : str),
    generate_sql_langchain w user_prompt database_file ollama_model_name
      = (t, Ok sql_query) ->
    sql_query <> [] ->
    cursor_execute w database_file sql_query = inr [] ->
    turn w user_prompt
    = (t ++ [EConnect database_file; EExecute sql_query; EClose;
             EPrint (lit "No data found.")], Ok tt)
    /\ no_post (trace (turn w user_prompt)).
Proof.
  intros w user_prompt t sql_query Hgen Hne Hrows.
  pose proof (generate_sql_connected _ _ _ _ _ _ _ Hgen) as Hconn.
  assert (Hturn :
    turn w user_prompt
    = (t ++ [EConnect database_file; EExecute sql_query; EClose;
             EPrint (lit "No data found.")], Ok tt)).
  { rewrite turn_eq, Hgen.
    destruct sql_query as [|c sql]; [congruence|].
    rewrite fetch_data_eq, Hconn, Hrows. reflexivity. }
  split; [exact Hturn|].
  rewrite Hturn. intros url headers payload Hin. unfold trace in Hin.
  simpl in Hin. apply in_app_or in Hin. destruct Hin as [Hin|Hin].
  - pose proof (no_post_of_synthesis w user_prompt database_file
                  ollama_model_name) as Hno.
    rewrite Hgen in Hno. exact (Hno _ _ _ Hin).
  - revert Hin. close_absent.
Qed.


Lemma rephrase_posts_its_request w (prompt : str) (data : option (list (row float)))
  url headers payload :
  In (EPost url headers payload)
    (trace (rephrase_answer_deepseek_api w prompt data)) ->
  exists rows,
    data = Some rows /\ rows <> []
    /\ url = deepseek_url /\ headers = deepseek_headers
    /\ payload = deepseek_payload prompt rows.
Proof.
  destruct data as [[|r rest]|]; try (intros []).
  intros Hin. exists (r :: rest).
  split; [reflexivity|]. split; [discriminate|].
  rewrite rephrase_eq in Hin. unfold trace in Hin.
  assert (Hfail : forall e,
    In (EPost url headers payload)
      (fst (after_failure
              (EPost deepseek_url deepseek_headers
                 (deepseek_payload prompt (r :: rest))) e)) ->
    EPost deepseek_url deepseek_headers (deepseek_payload prompt (r :: rest))
    = EPost url headers payload).
  { intros e H. destruct e; simpl in H;
      repeat (destruct H as [H|H]; [first [exact H | discriminate H]|]);
      destruct H. }
  assert (Heq :
    EPost deepseek_url deepseek_headers (deepseek_payload prompt (r :: rest))
    = EPost url headers payload).
  { destruct (requests_post w deepseek_url deepseek_headers
                (deepseek_payload prompt (r :: rest))) as [e|resp];
      [exact (Hfail _ Hin)|].
    destruct (status_error resp) as [msg|]; [exact (Hfail _ Hin)|].
    destruct (body_json resp) as [e|j]; [exact (Hfail _ Hin)|].
    destruct (outcome (extract_content j)) as [a|e]; [|exact (Hfail _ Hin)].
    simpl in Hin. destruct Hin as [Hin|[]]. exact Hin. }
  injection Heq as <- <- <-. auto.
Qed.

(** X13.  A turn calls the chat service only with rows in hand: every
    request in a turn goes to the fixed address with the fixed headers, and
    carries the question and a non-empty result set that the engine gave for
    the synthesized statement.  No rows, no request. *)
Theorem turn_posts_only_rows :
  forall w (user_prompt : str) url headers payload,
    In (EPost url headers payload) (trace (turn w user_prompt)) ->
    exists sql_query rows,
      outcome (generate_sql_langchain w user_prompt database_file
                 ollama_model_name) = Ok sql_query
      /\ cursor_execute w database_file sql_query = inr rows
      /\ rows <> []
      /\ url = deepseek_url /\ headers = deepseek_headers
      /\ payload = deepseek_payload user_prompt rows.
Proof.
  intros w user_prompt url headers payload Hin.
  rewrite turn_eq in Hin. unfold trace, outcome in *.
  pose proof (no_post_of_synthesis w user_prompt database_file
                ollama_model_name) as Hgen.
  destruct (generate_sql_langchain w user_prompt database_file
              ollama_model_name) as [t [sql|e]]; unfold trace in Hgen;
    simpl in Hgen; [|exfalso; exact (Hgen _ _ _ Hin)].
  destruct sql as [|c sql]; [exfalso; exact (Hgen _ _ _ Hin)|].
  pose proof (no_post_of_fetch_data w database_file (c :: sql)) as Hfetch.
  pose proof (fetch_data_eq w database_file (c :: sql)) as Heq.
  destruct (fetch_data w database_file (c :: sql)) as [tf [data|e]];
    unfold trace in Hfetch; simpl in Hfetch.
  2:{ simpl in Hin. apply in_app_or in Hin.
      destruct Hin as [Hin|Hin]; exfalso;
        [exact (Hgen _ _ _ Hin) | exact (Hfetch _ _ _ Hin)]. }
  assert (Hre : In (EPost url headers payload)
                  (trace (rephrase_answer_deepseek_api w user_prompt data))).
  { unfold trace.
    destruct (rephrase_answer_deepseek_api w user_prompt data) as [tr [x|e]];
      [destruct (existsb is_surrogate (shown x))|];
      cbn [fst snd] in *;
      apply in_app_or in Hin;
      (destruct Hin as [Hin|Hin]; [exfalso; exact (Hgen _ _ _ Hin)|]);
      apply in_app_or in Hin;
      (destruct Hin as [Hin|Hin]; [exfalso; exact (Hfetch _ _ _ Hin)|]).
    - exact Hin.
    - apply in_app_or in Hin. destruct Hin as [Hin|[Hin|[]]];
        [exact Hin | discriminate Hin].
    - exact Hin. }
  destruct (rephrase_posts_its_request _ _ _ _ _ _ Hre)
    as [rows [-> [Hne [Hu [Hh Hp]]]]].
  exists (c :: sql), rows. split; [reflexivity|].
  split; [|auto].
  destruct (sqlite3_connect w database_file) as [e|].
  - destruct e; discriminate Heq.
  - destruct (cursor_execute w database_file (c :: sql)) as [e|rows'].
    + destruct e; discriminate Heq.
    + injection Heq as _ <-. reflexivity.
Qed.

(** ** The command loop *)

Lemma str_eqb_eq (a b : str) : str_eqb a b = true <-> a = b.
Proof.
  revert b. induction a as [|x a IH]; intros [|y b]; simpl;
    try (split; [discriminate | discriminate]); [tauto|].
  rewrite andb_true_iff, N.eqb_eq, IH. split.
  - intros [-> ->]. reflexivity.
  - intros H. injection H as -> ->. auto.
Qed.

Section LoopProperties.

Variable lower : str -> str.

(** The loop on a first stretch of lines none of which is the exit word and
    each of which gets a turn that returns. *)
Lemma main_loop_app w (before rest : list str) :
  (forall q, In q before ->
     lower q <> lit "exit" /\ exists r, outcome (turn w q) = Ok r) ->
  main_loop lower w (before ++ rest)
  = (flat_map (fun q => Asked input_prompt :: map During (trace (turn w q)))
       before
     ++ fst (main_loop lower w rest),
     snd (main_loop lower w rest)).
Proof.
  induction before as [|q before IH]; intros H.
  - simpl. destruct (main_loop lower w rest). reflexivity.
  - destruct (H q (or_introl eq_refl)) as [Hq [r Hr]].
    cbn [app main_loop flat_map].
    destruct (str_eqb (lower q) (lit "exit")) eqn:Hexit.
    { apply str_eqb_eq in Hexit. contradiction. }
    unfold outcome, trace in *.
    destruct (turn w q) as [t [u|e]]; [|discriminate Hr].
    rewrite IH by (intros q' Hq'; apply H; right; exact Hq').
    cbn [fst snd]. rewrite <- app_assoc. reflexivity.
Qed.

(** X14.  The loop answers the questions in turn until the first line
    whose lower-case form is the word exit, then ends normally; the lines
    after that one are not read.  A turn that returns, whatever it printed
    (an answer, a diagnostic, nothing), never ends the loop. *)
Theorem loop_runs_until_exit :
  forall w (before : list str) (word : str) (rest : list str),
    (forall q, In q before ->
       lower q <> lit "exit" /\ exists r, outcome (turn w q) = Ok r) ->
    lower word = lit "exit" ->
    main_loop lower w (before ++ word :: rest)
    = (flat_map (fun q => Asked input_prompt :: map During (trace (turn w q)))
         before
       ++ [Asked input_prompt],
       Ok tt).
Proof.
  intros w before word rest Hbefore Hword.
  rewrite (main_loop_app w before (word :: rest) Hbefore).
  cbn [main_loop]. rewrite Hword. reflexivity.
Qed.

(** X15.  The first turn that raises ends the loop with its exception:
    the lines after that question are not read, and nothing more is
    asked. *)
Theorem loop_stops_at_first_exception :
  forall w (before : list str) (question : str) (rest : list str) (e : exn),
    (forall q, In q before ->
       lower q <> lit "exit" /\ exists r, outcome (turn w q) = Ok r) ->
    lower question <> lit "exit" ->
    outcome (turn w question) = Raise e ->
    main_loop lower w (before ++ question :: rest)
    = (flat_map (fun q => Asked input_prompt :: map During (trace (turn w q)))
         before
       ++ Asked input_prompt :: map During (trace (turn w question)),
       Raise e).
Proof.
  intros w before question rest e Hbefore Hq He.
  rewrite (main_loop_app w before (question :: rest) Hbefore).
  cbn [main_loop].
  destruct (str_eqb (lower question) (lit "exit")) eqn:Hexit.
  { apply str_eqb_eq in Hexit. contradiction. }
  unfold outcome, trace in *.
  destruct (turn w question) as [t [u|e']]; [discriminate He|].
  injection He as ->. reflexivity.
Qed.

(** X16.  When the input ends before any exit word, the loop asks once
    more after the last turn and ends with the exception [input] raises at
    the end of the input. *)
Theorem loop_ends_at_end_of_input :
  forall w (stdin : list str),
    (forall q, In q stdin ->
       lower q <> lit "exit" /\ exists r, outcome (turn w q) = Ok r) ->
    main_loop lower w stdin
    = (flat_map (fun q => Asked input_prompt :: map During (trace (turn w q)))
         stdin
       ++ [Asked input_prompt],
       Raise (OtherException (lit "EOF when reading a line"))).
Proof.
  intros w stdin H.
  rewrite <- (app_nil_r stdin) at 1.
  rewrite (main_loop_app w stdin [] H). reflexivity.
Qed.

End LoopProperties.

End MoreProperties.

(** ** The monthly report *)

Section ReportProperties.

Variable float : Type.
Context {py : interpreter float} {lib : library float}.

Implicit Types (w : world float) (globals : namespace float).

Lemma dict_get_in (d : list (str * pyval float)) (k : str) (x : pyval float) :
  NoDup (map fst d) -> In (k, x) d -> dict_get d k = Some x.
Proof.
  induction d as [|[k' x'] d IH]; intros Hnd Hin; [destruct Hin|].
  simpl in *. inversion Hnd as [|? ? Hnot Hnd']; subst.
  destruct Hin as [Heq|Hin].
  - injection Heq as -> ->.
    destruct (str_eqb k k) eqn:Hk; [reflexivity|].
    assert (H : str_eqb k k = true) by (apply str_eqb_eq; reflexivity).
    congruence.
  - destruct (str_eqb k' k) eqn:Hk.
    + apply str_eqb_eq in Hk. subst k'. exfalso. apply Hnot.
      apply in_map_iff. exists (k, x). auto.
    + apply IH; assumption.
Qed.

Lemma bind_pure {A B} (a : A) (f : A -> M float B) :
  bind ([], Ok a) f = f a.
Proof. unfold bind. simpl. destruct (f a). reflexivity. Qed.

Lemma map_m_pure {A B} (f : A -> M float B) (h : A -> B) (xs : list A) :
  (forall a, In a xs -> f a = ([], Ok (h a))) ->
  map_m f xs = ([], Ok (map h xs)).
Proof.
  induction xs as [|x xs IH]; intros H; [reflexivity|].
  cbn [map_m map]. rewrite (H x (or_introl eq_refl)), bind_pure.
  rewrite IH by (intros a Ha; apply H; right; exact Ha).
  reflexivity.
Qed.

(** The monthly report on the first of a month, on a mapping from
    locations to mappings: up to the mail. *)
Lemma monthly_report_eq w globals (d : list (str * pyval float))
  (total : pyval float) (total_text : str) :
  day (datetime_now w) = 1%Z ->
  lookup globals (lit "data") = Some (VDict d) ->
  NoDup (map fst d) ->
  (forall k x, In (k, x) d -> exists fields, x = VDict fields) ->
  py_sum (map (fun kv => tax_collected (snd kv)) d) = Ok total ->
  py_format total (lit ".2f") = Ok total_text ->
  send_monthly_tax_collection_report w globals
  = bind (send_email w (VStr (lit "finance_manager@example.com"))
            (lit "Monthly Tax Collection Report ("
             ++ strftime (datetime_now w) (lit "%Y-%m") ++ lit ")")
            (lit "Total tax collected across all locations for "
             ++ strftime (datetime_now w) (lit "%Y-%m") ++ lit ": $"
             ++ total_text))
      (fun _ => print (lit "Monthly tax collection report sent.")).
Proof.
  intros Hday Hdata Hnd Hentries Hsum Hfmt.
  unfold send_monthly_tax_collection_report. rewrite Hday.
  change (1 =? 1)%Z with true. cbv iota.
  unfold load_name.
  repeat match goal with
         | |- context [existsb ?f ?l] =>
             change (existsb f l) with false
         end.
  cbv iota. rewrite Hdata. unfold load_global.
  unfold ret at 1. rewrite bind_pure.
  cbn [iterate]. unfold ret at 1. rewrite bind_pure.
  rewrite (map_m_pure _
             (fun loc : pyval float => match loc with
                         | VStr k =>
                             match dict_get d k with
                             | Some x => tax_collected x
                             | None => VInt 0
                             end
                         | _ => VInt 0
                         end)).
  2:{ intros a Ha. apply in_map_iff in Ha. destruct Ha as [[k x] [<- Hin]].
      cbn [fst]. unfold ret at 1. rewrite bind_pure.
      cbn [getitem getitem_str].
      rewrite (dict_get_in _ _ _ Hnd Hin).
      destruct (Hentries _ _ Hin) as [fields ->].
      unfold ret at 1. rewrite bind_pure. reflexivity. }
  rewrite bind_pure.
  assert (Htaxes :
    map (fun loc : pyval float => match loc with
                    | VStr k =>
                        match dict_get d k with
                        | Some x => tax_collected x
                        | None => VInt 0
                        end
                    | _ => VInt 0
                    end)
      (map (fun kv : str * pyval float => VStr (fst kv)) d)
    = map (fun kv => tax_collected (snd kv)) d).
  { rewrite map_map. apply map_ext_in. intros [k x] Hin. cbn [fst snd].
    rewrite (dict_get_in _ _ _ Hnd Hin). reflexivity. }
  rewrite Htaxes, Hsum. unfold lift_result at 1. rewrite bind_pure.
  rewrite Hfmt. unfold lift_result at 1. rewrite bind_pure.
  reflexivity.
Qed.


(** X18.  When the mail server refuses the monthly report, the function
    still returns normally and still prints that the report was sent, right
    after the line that reports the refusal. *)
Theorem monthly_report_claims_sent_after_refusal :
  forall w globals (d : list (str * pyval float)) (total : pyval float)
         (total_text refusal : str),
    day (datetime_now w) = 1%Z ->
    lookup globals (lit "data") = Some (VDict d) ->
    NoDup (map fst d) ->
    (forall k x, In (k, x) d -> exists fields, x = VDict fields) ->
    py_sum (map (fun kv => tax_collected (snd kv)) d) = Ok total ->
    py_format total (lit ".2f") = Ok total_text ->
    (forall to_email subject body,
        smtp_sendmail w to_email subject body = Some refusal) ->
    outcome (send_monthly_tax_collection_report w globals) = Ok tt
    /\ printed (trace (send_monthly_tax_collection_report w globals))
       = [lit "Error sending email to finance_manager@example.com: " ++ refusal;
          lit "Monthly tax collection report sent."].
Proof.
  intros w globals d total total_text refusal
    Hday Hdata Hnd Hentries Hsum Hfmt Hrefuse.
  rewrite (monthly_report_eq w globals d total total_text
             Hday Hdata Hnd Hentries Hsum Hfmt).
  unfold send_email, print, emit, bind, trace, outcome. cbn [fst snd app].
  rewrite Hrefuse. split; reflexivity.
Qed.

(** X19.  The monthly report reads the module's [data] on the first of a
    month only.  On any other day it prints that it skips and returns, with
    or without [data]; on the first, in a module that has no [data], it
    raises [NameError] before any mail or print. *)
Theorem monthly_report_reads_data_on_the_first_only :
  forall w globals,
    (day (datetime_now w) <> 1%Z ->
     send_monthly_tax_collection_report w globals
     = ([EPrint (lit "Not the first day of the month, skipping monthly tax report.")],
        Ok tt))
    /\ (day (datetime_now w) = 1%Z ->
        lookup globals (lit "data") = None ->
        send_monthly_tax_collection_report w globals
        = ([], Raise (NameError (lit "data")))).
Proof.
  intros w globals. split.
  - intros Hday. unfold send_monthly_tax_collection_report.
    destruct (Z.eqb_spec (day (datetime_now w)) 1) as [H|_]; [contradiction|].
    reflexivity.
  - intros Hday Hdata. unfold send_monthly_tax_collection_report.
    rewrite Hday. change (1 =? 1)%Z with true. cbv iota.
    unfold load_name.
    repeat match goal with
           | |- context [existsb ?f ?l] => change (existsb f l) with false
           end.
    cbv iota. rewrite Hdata. reflexivity.
Qed.

End ReportProperties.

(** * The further properties on the sample worlds *)

(** X1 on a catalog whose table name the engine rejects in the [PRAGMA]:
    the run raises and has made no close. *)
Lemma schema_closes_only_on_return_witness :
  ~ In EClose (trace (get_database_schema Cases.w_odd_table_name database_file)).
Proof.
  destruct (schema_closes_only_on_return Cases.float Cases.w_odd_table_name
              database_file) as [_ Hraise].
  apply (Hraise (SqliteError (lit "near items: syntax error"))).
  vm_compute. reflexivity.
Defined.

(** X2 on the sample database with its one table. *)
Lemma schema_lists_tables_in_catalog_order_witness :
  get_database_schema Sample.w_answers database_file
  = ([EConnect database_file; EExecute catalog_query;
      EExecute (table_info_query (SText (lit "orders"))); EClose],
     Ok (rendered_table (SText (lit "orders")) Sample.orders_columns ++ [])).
Proof.
  apply (schema_lists_tables_in_catalog_order Sample.float Sample.w_answers
           database_file Sample.orders_catalog [SText (lit "orders")]
           (fun _ => Sample.orders_columns)).
  - reflexivity.
  - reflexivity.
  - repeat constructor.
  - intros table [<-|[]]. split; [reflexivity|]. repeat constructor.
Defined.

(** X3 on a model backend that cannot be reached: one invocation, and its
    exception. *)
Lemma synthesis_asks_the_model_once_witness :
  outcome (generate_sql_langchain Cases.w_model_down Sample.question
             database_file ollama_model_name)
  = Raise (OtherException (lit "connection refused")).
Proof.
  assert (Hschema :
    get_database_schema Cases.w_model_down database_file
    = (trace (get_database_schema Cases.w_model_down database_file),
       Ok (lit "
Table: orders
  Column: id, Type: INTEGER, PRIMARY KEY
  Column: amount, Type: REAL
  Column: location, Type: TEXT
"))) by (vm_compute; reflexivity).
  destruct (synthesis_asks_the_model_once Cases.float Cases.w_model_down
              Sample.question database_file ollama_model_name _ _ Hschema)
    as [Hgen _].
  rewrite Hgen. reflexivity.
Defined.

(** X4 on a database file that cannot be opened. *)
Lemma synthesis_stops_at_schema_failure_witness :
  generate_sql_langchain Cases.w_no_database Sample.question database_file
    ollama_model_name
  = ([EConnect database_file],
     Raise (SqliteError (lit "unable to open database file")))
  /\ no_invoke
       (trace (generate_sql_langchain Cases.w_no_database Sample.question
                 database_file ollama_model_name)).
Proof.
  apply (synthesis_stops_at_schema_failure Cases.float).
  reflexivity.
Defined.

(** X5 on a completion with white space and line feeds around the
    statement. *)
Lemma synthesis_only_trims_witness :
  exists schema completion before after,
    ollama_invoke Cases.w_padded ollama_model_name
      (synthesis_prompt schema Sample.question) = inr completion
    /\ completion = before ++ Sample.total_query ++ after
    /\ forallb isspace before = true
    /\ forallb isspace after = true.
Proof.
  apply (synthesis_only_trims Cases.float Cases.w_padded Sample.question
           database_file ollama_model_name
           (trace (generate_sql_langchain Cases.w_padded Sample.question
                     database_file ollama_model_name))).
  vm_compute. reflexivity.
Defined.

(** X7 on an engine that raises a warning, which is no [sqlite3.Error]. *)
Lemma fetch_data_other_exception_propagates_witness :
  outcome (fetch_data Cases.w_not_an_engine_error database_file
             Sample.total_query)
  = Raise (OtherException (lit "You can only execute one statement at a time."))
  /\ printed (trace (fetch_data Cases.w_not_an_engine_error database_file
                       Sample.total_query)) = []
  /\ ~ In EClose (trace (fetch_data Cases.w_not_an_engine_error database_file
                           Sample.total_query)).
Proof.
  apply (fetch_data_other_exception_propagates Cases.float).
  - intros msg. discriminate.
  - right. split; reflexivity.
Defined.

(** X8 on a reply with white space around its text. *)
Lemma rephrase_returns_trimmed_content_witness :
  rephrase_answer_deepseek_api Cases.w_padded_reply Sample.question
    (Some [[SReal 150%Z]])
  = ([EPost deepseek_url deepseek_headers
        (deepseek_payload Sample.question [[SReal 150%Z]])],
     Ok (Some (strip (lit " The total is 150.0. " ++ nl))))
  /\ (strip (lit " The total is 150.0. " ++ nl) = []
      <-> forallb isspace (lit " The total is 150.0. " ++ nl) = true).
Proof.
  assert (Hne : [[@SReal Cases.float 150%Z]] <> []) by discriminate.
  apply (rephrase_returns_trimmed_content Cases.float Cases.w_padded_reply
           Sample.question [[SReal 150%Z]]
           (Sample.chat_reply (VStr (lit " The total is 150.0. " ++ nl)))
           [ (lit "choices",
              VList [ VDict [ (lit "message",
                               VDict [ (lit "role", VStr (lit "assistant"));
                                       (lit "content",
                                        VStr (lit " The total is 150.0. " ++ nl)) ]) ] ]) ]
           [ (lit "message",
              VDict [ (lit "role", VStr (lit "assistant"));
                      (lit "content", VStr (lit " The total is 150.0. " ++ nl)) ]) ]
           [ (lit "role", VStr (lit "assistant"));
             (lit "content", VStr (lit " The total is 150.0. " ++ nl)) ]
           [] (lit " The total is 150.0. " ++ nl) Hne);
    reflexivity.
Defined.

(** X9 on a reply with an empty list of choices. *)
Lemma rephrase_unhandled_bodies_raise_witness :
  rephrase_answer_deepseek_api Cases.w_empty_choices Sample.question
    (Some [[SReal 150%Z]])
  = ([EPost deepseek_url deepseek_headers
        (deepseek_payload Sample.question [[SReal 150%Z]])],
     Raise IndexError).
Proof.
  assert (Hne : [[@SReal Cases.float 150%Z]] <> []) by discriminate.
  destruct (rephrase_unhandled_bodies_raise Cases.float Cases.w_empty_choices
              Sample.question [[SReal 150%Z]]
              {| status_error := None;
                 body_json := inr (VDict [ (lit "choices", VList []) ]) |}
              Hne eq_refl eq_refl) as [Hempty _].
  apply (Hempty [ (lit "choices", VList []) ]); reflexivity.
Defined.


(** X11 on a statement that yields no row. *)
Lemma turn_on_zero_rows_witness :
  printed (trace (turn Cases.w_zero_rows Sample.question))
  = [lit "No data found."]
  /\ no_post (trace (turn Cases.w_zero_rows Sample.question)).
Proof.
  assert (Hgen :
    generate_sql_langchain Cases.w_zero_rows Sample.question database_file
      ollama_model_name
    = (trace (generate_sql_langchain Cases.w_zero_rows Sample.question
                database_file ollama_model_name), Ok Sample.total_query))
    by (vm_compute; reflexivity).
  assert (Hne : Sample.total_query <> []) by discriminate.
  destruct (turn_on_zero_rows Cases.float Cases.w_zero_rows Sample.question
              _ _ Hgen Hne eq_refl) as [Hturn Hno].
  split; [|exact Hno].
  rewrite Hturn. vm_compute. reflexivity.
Defined.

(** X13 on scenario 1: the one request of the turn carries the row the
    engine gave. *)
Lemma turn_posts_only_rows_witness :
  exists sql_query rows,
    outcome (generate_sql_langchain Sample.w_answers Sample.question
               database_file ollama_model_name) = Ok sql_query
    /\ cursor_execute Sample.w_answers database_file sql_query = inr rows
    /\ rows <> []
    /\ deepseek_url = deepseek_url /\ deepseek_headers = deepseek_headers
    /\ deepseek_payload Sample.question [[SReal 150%Z]]
       = deepseek_payload Sample.question rows.
Proof.
  apply (turn_posts_only_rows Sample.float Sample.w_answers Sample.question
           deepseek_url deepseek_headers
           (deepseek_payload Sample.question [[SReal 150%Z]])).
  vm_compute. do 8 right. left. reflexivity.
Defined.

(** X14 on three lines: a question whose statement the engine rejects, the
    exit word in capitals, and a line that is never read. *)
Lemma loop_runs_until_exit_witness :
  main_loop Cases.ascii_lower Sample.w_no_table
    ([Sample.question] ++ lit "EXIT" :: [lit "never read"])
  = (flat_map
       (fun q => Asked input_prompt
                 :: map During (trace (turn Sample.w_no_table q)))
       [Sample.question]
     ++ [Asked input_prompt],
     Ok tt).
Proof.
  apply (loop_runs_until_exit Sample.float).
  - intros q [<-|[]]. split.
    + vm_compute. discriminate.
    + exists tt. vm_compute. reflexivity.
  - reflexivity.
Defined.

(** X15 on a model backend that cannot be reached: the first question ends
    the loop. *)
Lemma loop_stops_at_first_exception_witness :
  main_loop Cases.ascii_lower Cases.w_model_down
    ([] ++ Sample.question :: [lit "exit"])
  = (flat_map
       (fun q => Asked input_prompt
                 :: map During (trace (turn Cases.w_model_down q)))
       []
     ++ Asked input_prompt
        :: map During (trace (turn Cases.w_model_down Sample.question)),
     Raise (OtherException (lit "connection refused"))).
Proof.
  apply (loop_stops_at_first_exception Cases.float).
  - intros q [].
  - vm_compute. discriminate.
  - vm_compute. reflexivity.
Defined.

(** X16 on an input of one question and no exit word. *)
Lemma loop_ends_at_end_of_input_witness :
  main_loop Cases.ascii_lower Sample.w_answers [Sample.question]
  = (flat_map
       (fun q => Asked input_prompt
                 :: map During (trace (turn Sample.w_answers q)))
       [Sample.question]
     ++ [Asked input_prompt],
     Raise (OtherException (lit "EOF when reading a line"))).
Proof.
  apply (loop_ends_at_end_of_input Sample.float).
  intros q [<-|[]]. split.
  - vm_compute. discriminate.
  - exists tt. vm_compute. reflexivity.
Defined.


(** X18 on the sample ledger with a mail server that refuses. *)
Lemma monthly_report_claims_sent_after_refusal_witness :
  outcome (send_monthly_tax_collection_report
             (Ledger.ledger_world (Some (lit "relay access denied"))
                Ledger.first_of_march) Ledger.module_with_data) = Ok tt
  /\ printed (trace (send_monthly_tax_collection_report
                       (Ledger.ledger_world (Some (lit "relay access denied"))
                          Ledger.first_of_march) Ledger.module_with_data))
     = [lit "Error sending email to finance_manager@example.com: "
        ++ lit "relay access denied";
        lit "Monthly tax collection report sent."].
Proof.
  apply (monthly_report_claims_sent_after_refusal Ledger.amount
           (Ledger.ledger_world (Some (lit "relay access denied"))
              Ledger.first_of_march)
           Ledger.module_with_data
           [ (lit "amman",
              VDict [ (lit "failure_rate",
                       VFloat {| Ledger.hundredths := 7 |});
                      (lit "monthly_tax_collection", VInt 1200);
                      (lit "manager_email", VStr (lit "amman@example.com")) ]);
             (lit "irbid",
              VDict [ (lit "manager_email", VStr (lit "irbid@example.com")) ]) ]
           (VInt 1200) (lit "1200.00")).
  - reflexivity.
  - reflexivity.
  - repeat constructor; simpl; intuition discriminate.
  - intros k x [H|[H|[]]]; injection H as _ <-; eexists; reflexivity.
  - reflexivity.
  - reflexivity.
  - intros. reflexivity.
Defined.

(** X19 on the second of March, in a module without [data]. *)
Lemma monthly_report_reads_data_on_the_first_only_witness :
  send_monthly_tax_collection_report
    (Ledger.ledger_world None Ledger.second_of_march) []
  = ([EPrint (lit "Not the first day of the month, skipping monthly tax report.")],
     Ok tt).
Proof.
  destruct (monthly_report_reads_data_on_the_first_only Ledger.amount
              (Ledger.ledger_world None Ledger.second_of_march) [])
    as [Hskip _].
  apply Hskip. simpl. discriminate.
Defined.
